(** * datacheck.py: the OpenStreetMap data check of veggiekarte

    A shallow embedding of [src/datacheck/datacheck.py] and the properties
    of its two parts: the URL check with its table of earlier results
    ([is_url_ok], [url_data]) and the rule walk over the OSM elements
    ([check_data], [main]). *)

From Stdlib Require Import ZArith QArith String Ascii List Bool Lia.
From stdpp Require Import base option list gmap strings fin_maps pretty.

Local Open Scope string_scope.
Local Open Scope Z_scope.
Local Open Scope list_scope.

(** ** Python strings *)

Module PyStr.

(** [sub in s] *)
Fixpoint contains (sub s : string) : bool :=
  String.prefix sub s ||
  match s with
  | EmptyString => false
  | String _ s' => contains sub s'
  end.

(** [s.startswith(p)] *)
Definition startswith (s p : string) : bool := String.prefix p s.

(** [s.replace(c, by)] for a pattern [c] of one character. *)
Fixpoint replace (c : ascii) (by_ : string) (s : string) : string :=
  match s with
  | EmptyString => EmptyString
  | String a s' =>
      if Ascii.eqb a c then by_ +:+ replace c by_ s'
      else String a (replace c by_ s')
  end.

(** The double quote character, code point 34. *)
Definition dquote : ascii := ascii_of_nat 34.

(** Line feed and carriage return. *)
Definition lf : string := String (ascii_of_nat 10) EmptyString.
Definition cr : string := String (ascii_of_nat 13) EmptyString.

(** [sep.join(l)] with the empty separator. *)
Definition join (l : list string) : string := String.concat "" l.

End PyStr.

(** ** Exceptions and the state of a run *)

Inductive exn := AttributeError | UnboundLocalError | ValueError | KeyError.

Inductive outcome (A : Type) :=
| Ok (a : A)
| Raise (e : exn).
Arguments Ok {A} a.
Arguments Raise {A} e.

(** One record of [urldata.json] and the dict that [is_url_ok] returns. *)
Record entry := Entry { date : string; isOk : bool; text : string }.

(** What [requests.get(url, timeout=5)] does: it raises an exception of
    some class, or returns a response with a status code. *)
Inductive response :=
| Raised (class_name : string)
| Response (status_code : Z).

(** The global [url_data] and the log of the URLs handed to
    [requests.get], oldest first. *)
Record world := World { url_data : gmap string entry; probes : list string }.

Definition M (A : Type) : Type := world -> outcome (A * world).

Definition ret {A} (a : A) : M A := fun w => Ok (a, w).
Definition bind {A B} (m : M A) (k : A -> M B) : M B :=
  fun w => match m w with
           | Ok (a, w') => k a w'
           | Raise e => Raise e
           end.
Definition lift {A} (o : outcome A) : M A :=
  fun w => match o with Ok a => Ok (a, w) | Raise e => Raise e end.

Notation "'do' x <- m ; k" := (bind m (fun x => k))
  (at level 10, x pattern, m at level 100, k at level 200).

(** ** The OSM input *)

Record center := Center { center_lat : option Q; center_lon : option Q }.

(** An element of [data["elements"]]: [id] and [type] are read with a
    subscript, the others with [.get]. [tags] keeps the order of the keys, which
    the join of the keys in the disused rule reads. *)
Record osm_element := Element {
  el_id : Z;
  el_type : string;
  el_lat : option Q;
  el_lon : option Q;
  el_center : option center;
  el_tags : option (list (string * string))
}.

Module Tags.
Definition t := list (string * string).

(** [tags[k]] guarded by [k in tags]: the value, or [None] when absent. *)
Fixpoint lookup (k : string) (tags : t) : option string :=
  match tags with
  | [] => None
  | (k', v) :: rest => if String.eqb k' k then Some v else lookup k rest
  end.

(** [k in tags] *)
Definition mem (k : string) (tags : t) : bool :=
  match lookup k tags with Some _ => true | None => false end.

(** [tags.get(k, "")] *)
Definition get (k : string) (tags : t) : string :=
  match lookup k tags with Some v => v | None => "" end.

(** Iterating a dict gives its keys. *)
Definition keys (tags : t) : list string := map fst tags.
End Tags.

(** ** The report *)

(** [place_check_obj] while the rules run: both lists are present. *)
Record place_check := PlaceCheck {
  pc_id : Z;
  pc_type : string;
  pc_undefined : list string;
  pc_issues : list string;
  pc_coordinates : option Q * option Q;
  pc_name : string;
  pc_diet_vegan : option string
}.

(** [place_check_obj] as appended to ["features"]: a key deleted from
    ["properties"] is [None]. The pair of [coordinates] is [[lon, lat]]. *)
Record feature := Feature {
  _id : Z;
  _type : string;
  undefined : option (list string);
  issues : option (list string);
  issue_number : nat;
  name : string;
  diet_vegan : option string;
  coordinates : option Q * option Q
}.

Record check_result := CheckResult {
  _timestamp : string;
  features : list feature
}.

Definition add_undefined (s : string) (p : place_check) : place_check :=
  {| pc_id := pc_id p; pc_type := pc_type p;
     pc_undefined := pc_undefined p ++ [s]; pc_issues := pc_issues p;
     pc_coordinates := pc_coordinates p; pc_name := pc_name p;
     pc_diet_vegan := pc_diet_vegan p |}.

Definition add_issue (s : string) (p : place_check) : place_check :=
  {| pc_id := pc_id p; pc_type := pc_type p;
     pc_undefined := pc_undefined p; pc_issues := pc_issues p ++ [s];
     pc_coordinates := pc_coordinates p; pc_name := pc_name p;
     pc_diet_vegan := pc_diet_vegan p |}.

(** [if c: append] *)
Definition when (c : bool) (f : place_check -> place_check)
  (p : place_check) : place_check := if c then f p else p.

(** What a run of [main] leaves: the two files it wrote, and the log of
    its probes. [check_results_file] is [None] when [osm_data] is [None]
    and the file is not written. *)
Record run := Run {
  check_results_file : option check_result;
  urldata_file : gmap string entry;
  run_probes : list string
}.

(** ** The libraries, on the inputs of the examples

    The program takes the libraries it calls as parameters. The examples
    need them on a few inputs, where these readings agree with them. *)

Module Sample.

Definition digit (c : ascii) : option Z :=
  let n := Z.of_nat (nat_of_ascii c) in
  if (48 <=? n) && (n <=? 57) then Some (n - 48) else None.

Fixpoint number_from (acc : Z) (s : string) : option Z :=
  match s with
  | EmptyString => Some acc
  | String c s' =>
      match digit c with
      | Some d => number_from (10 * acc + d) s'
      | None => None
      end
  end.

Definition is_leap (y : Z) : bool :=
  (y mod 4 =? 0) && (negb (y mod 100 =? 0) || (y mod 400 =? 0)).

Definition days_in_month (y m : Z) : Z :=
  if m =? 2 then (if is_leap y then 29 else 28)
  else if (m =? 4) || (m =? 6) || (m =? 9) || (m =? 11) then 30
  else 31.

(** The days of the months 1 to [m - 1]. *)
Fixpoint days_before_month (y : Z) (m : nat) : Z :=
  match m with
  | O => 0
  | S O => 0
  | S m' => days_before_month y m' + days_in_month y (Z.of_nat m')
  end.

(** The day number of a date, 1 for the first of January of year 1. *)
Definition toordinal (y m d : Z) : Z :=
  let y' := y - 1 in
  y' * 365 + y' / 4 - y' / 100 + y' / 400
  + days_before_month y (Z.to_nat m) + d.

(** A date written as four, two and two digits with dashes between. *)
Definition strptime (s : string) : option Z :=
  if negb (Nat.eqb (String.length s) 10) then None
  else if negb (String.eqb (substring 4 1 s) "-" &&
                String.eqb (substring 7 1 s) "-") then None
  else
    match number_from 0 (substring 0 4 s),
          number_from 0 (substring 5 2 s),
          number_from 0 (substring 8 2 s) with
    | Some y, Some m, Some d =>
        if (1 <=? y) && (1 <=? m) && (m <=? 12) &&
           (1 <=? d) && (d <=? days_in_month y m)
        then Some (toordinal y m d) else None
    | _, _, _ => None
    end.

Fixpoint split_at (c : ascii) (s : string) : option (string * string) :=
  match s with
  | EmptyString => None
  | String a s' =>
      if Ascii.eqb a c then Some (EmptyString, s')
      else match split_at c s' with
           | Some (l, r) => Some (String a l, r)
           | None => None
           end
  end.

Fixpoint take_until (stop : ascii -> bool) (s : string) : string :=
  match s with
  | EmptyString => EmptyString
  | String a s' => if stop a then EmptyString else String a (take_until stop s')
  end.

Definition is_letter (c : ascii) : bool :=
  let n := Z.of_nat (nat_of_ascii c) in
  ((65 <=? n) && (n <=? 90)) || ((97 <=? n) && (n <=? 122)).

Fixpoint all_letters (s : string) : bool :=
  match s with
  | EmptyString => true
  | String a s' => is_letter a && all_letters s'
  end.

Definition ends_netloc (c : ascii) : bool :=
  Ascii.eqb c "/" || Ascii.eqb c "?" || Ascii.eqb c "#".

Definition netloc_of (rest : string) : string :=
  match rest with
  | String "/" (String "/" r) => take_until ends_netloc r
  | _ => EmptyString
  end.

(** Scheme and netloc of a URL whose scheme, if any, is made of letters. *)
Definition urlparse (url : string) : option (string * string) :=
  match split_at ":" url with
  | Some (scheme, rest) =>
      if negb (String.eqb scheme EmptyString) && all_letters scheme then Some (scheme, netloc_of rest)
      else Some (EmptyString, netloc_of url)
  | None => Some (EmptyString, netloc_of url)
  end.

Definition validate_email (email : string) : option string :=
  if PyStr.contains "@" email then None
  else Some "An email address must have an @-sign.".

(** Two states of the network. *)
Definition online (earlier : list string) (url : string) : response :=
  Response 200.
Definition not_found (earlier : list string) (url : string) : response :=
  Response 404.

Definition TIMESTAMP : string := "2024-03-01 12:00:00.000000".
Definition DATE : string := "2024-03-01".

Definition node (id : Z) (lat lon : option Q) (tags : list (string * string))
  : osm_element :=
  {| el_id := id; el_type := "node"; el_lat := lat; el_lon := lon;
     el_center := None; el_tags := Some tags |}.

Definition empty_world : world := {| url_data := ∅; probes := [] |}.

(** The element of the example in the specification. *)
Definition green_bowl : osm_element :=
  node 42 (Some (1 # 1)%Q) (Some (2 # 1)%Q)
    [("diet:vegan", "only"); ("name", "Green Bowl")].

Definition green_bowl_report : feature :=
  {| _id := 42; _type := "node";
     undefined := Some ["cuisine"; "addr:street"; "addr:housenumber";
                        "addr:city/suburb"; "addr:postcode"; "opening_hours"];
     issues := None; issue_number := 6;
     name := "Green Bowl"; diet_vegan := Some "only";
     coordinates := (Some (2 # 1)%Q, Some (1 # 1)%Q) |}.

(** A place that serves nothing vegan. *)
Definition steak_house : osm_element :=
  node 7 (Some (1 # 1)%Q) (Some (2 # 1)%Q)
    [("name", "Steak House"); ("diet:vegan", "no")].

(** A node without [lat] and [lon]. *)
Definition bare_node : osm_element :=
  node 8 None None [("name", "Nowhere"); ("diet:vegan", "yes")].

Definition bare_node_report : feature :=
  {| _id := 8; _type := "node";
     undefined := Some ["cuisine"; "addr:street"; "addr:housenumber";
                        "addr:city/suburb"; "addr:postcode"; "opening_hours"];
     issues := None; issue_number := 6;
     name := "Nowhere"; diet_vegan := Some "yes";
     coordinates := (None, None) |}.


(** An element of a type other than node, way and relation. *)
Definition area : osm_element :=
  {| el_id := 10; el_type := "area"; el_lat := None; el_lon := None;
     el_center := None; el_tags := Some [("diet:vegan", "yes")] |}.

(** A place with both website tags, the one to be migrated first. *)
Definition two_websites : Tags.t :=
  [("diet:vegan", "yes");
   ("contact:website", "https://www.facebook.com/greenbowl");
   ("website", "https://greenbowl.example")].

Definition two_websites_node : osm_element :=
  node 43 (Some (1 # 1)%Q) (Some (2 # 1)%Q) two_websites.

Definition two_websites_report : feature :=
  {| _id := 43; _type := "node";
     undefined := Some ["name"; "cuisine"; "addr:street"; "addr:housenumber";
                        "addr:city/suburb"; "addr:postcode"; "opening_hours"];
     issues := Some ["'website' and 'contact:website' defined -> remove one"];
     issue_number := 8;
     name := "node 43"; diet_vegan := Some "yes";
     coordinates := (Some (2 # 1)%Q, Some (1 # 1)%Q) |}.

(** A place with one website. *)
Definition with_website : osm_element :=
  node 44 (Some (1 # 1)%Q) (Some (2 # 1)%Q)
    [("name", "A"); ("diet:vegan", "yes"); ("website", "https://a.example")].

Definition with_website_report (issues : option (list string)) (n : nat)
  : feature :=
  {| _id := 44; _type := "node";
     undefined := Some ["cuisine"; "addr:street"; "addr:housenumber";
                        "addr:city/suburb"; "addr:postcode"; "opening_hours"];
     issues := issues; issue_number := n;
     name := "A"; diet_vegan := Some "yes";
     coordinates := (Some (2 # 1)%Q, Some (1 # 1)%Q) |}.

(** The run of [with_website] on an empty file, the network online. *)
Definition first_run : run :=
  {| check_results_file :=
       Some {| _timestamp := TIMESTAMP;
               features := [with_website_report None 6] |};
     urldata_file := ∅;
     run_probes := ["https://a.example"] |}.

(** Two entries, checked 29 and 28 days before [DATE]. *)
Definition old_entry : entry :=
  {| date := "2024-02-01"; isOk := true; text := "OK" |}.
Definition recent_entry : entry :=
  {| date := "2024-02-02"; isOk := false; text := "HTTP response code 404" |}.
Definition urldata : gmap string entry :=
  {[ "https://old.example" := old_entry;
     "https://recent.example" := recent_entry ]}.

Definition pruned_run : run :=
  {| check_results_file := None;
     urldata_file := {[ "https://recent.example" := recent_entry ]};
     run_probes := [] |}.

(** A network that cannot be reached. *)
Definition offline (earlier : list string) (url : string) : response :=
  Raised "ConnectionError".

(** A network that answers the first request of a run with 404 and
    limits the rate of every later one. *)
Definition rate_limiting (earlier : list string) (url : string) : response :=
  match earlier with
  | [] => Response 404
  | _ => Response 429
  end.

(** A place with a finding of nearly every kind. *)
Definition busy_tags : Tags.t :=
  [("name", "Joe's " +:+
            String PyStr.dquote ("Diner" +:+ String PyStr.dquote EmptyString));
   ("diet:vegan", "mostly");
   ("amenity", "restaurant");
   ("addr:city", "Berlin");
   ("contact:website", "https://www.facebook.com/joes");
   ("website", "not a url");
   ("contact:facebook", "http://www.facebook.com/joes");
   ("facebook", "joes");
   ("contact:instagram", "https://www.instagram.com/joes");
   ("contact:email", "joes.example");
   ("email", "joe@joes.example");
   ("contact:phone", "030 123");
   ("phone", "+49 30 123");
   ("opening_hours:covid19", "same");
   ("opening_hours", "Mo-Fr 10:00-18:00" +:+ PyStr.lf);
   ("disused:shop", "yes")].

Definition busy : osm_element :=
  node 50 (Some (1 # 1)%Q) (Some (2 # 1)%Q) busy_tags.

(** Its report when every site answers 404. *)
Definition busy_report : feature :=
  {| _id := 50; _type := "node";
     undefined := Some ["cuisine"; "addr:street"; "addr:housenumber";
                        "addr:postcode"];
     issues :=
       Some ["'diet:vegan' has an unusual value: mostly";
             "'contact:website' URI invalid"; "'website' URI invalid";
             "'website' and 'contact:website' defined -> remove one";
             "'contact:facebook' starts with 'http' instead of 'https'";
             "old tag: 'facebook' -> change to 'contact:facebook'";
             "'contact:instagram' URI invalid";
             "E-Mail is not valid: An email address must have an @-sign.";
             "'email' and 'contact:email' defined -> remove one";
             "'contact:phone' has no international format like '+44 20 84527891'";
             "'phone' and 'contact:phone' defined -> remove one";
             "There is a line break in 'opening_hours' -> remove";
             "There is a 'disused' tag: Check whether this tag is correct. If so, please remove the diet tags."];
     issue_number := 17;
     name := "Joe's ”Diner”";
     diet_vegan := Some "mostly";
     coordinates := (Some (2 # 1)%Q, Some (1 # 1)%Q) |}.

Definition busy_world : world :=
  {| url_data := ∅;
     probes := ["https://www.facebook.com/joes";
                "https://www.instagram.com/joes"] |}.

(** A place whose website is its Instagram page, with both contact pages. *)
Definition twice_tags : Tags.t :=
  [("name", "Twice");
   ("diet:vegan", "yes");
   ("website", "https://www.instagram.com/joes");
   ("contact:facebook", "https://www.facebook.com/joes");
   ("contact:instagram", "https://www.instagram.com/joes")].

Definition twice : osm_element :=
  node 51 (Some (1 # 1)%Q) (Some (2 # 1)%Q) twice_tags.

(** Its report on the [rate_limiting] network: the Instagram page is
    requested twice, refused as the website and accepted as the contact. *)
Definition twice_report : feature :=
  {| _id := 51; _type := "node";
     undefined := Some ["cuisine"; "addr:street"; "addr:housenumber";
                        "addr:city/suburb"; "addr:postcode"; "opening_hours"];
     issues :=
       Some ["'website' URI invalid";
             "'instagram' URI as website -> change to 'contact:instagram'"];
     issue_number := 8;
     name := "Twice";
     diet_vegan := Some "yes";
     coordinates := (Some (2 # 1)%Q, Some (1 # 1)%Q) |}.

Definition twice_world : world :=
  {| url_data := ∅;
     probes := ["https://www.instagram.com/joes";
                "https://www.facebook.com/joes";
                "https://www.instagram.com/joes"] |}.

(** A state with the table of [urldata]. *)
Definition cached_world : world := {| url_data := urldata; probes := [] |}.

(** A file with a date that is none. *)
Definition undated_entry : entry :=
  {| date := "yesterday"; isOk := true; text := "OK" |}.
Definition undated_urldata : gmap string entry :=
  {[ "https://old.example" := old_entry;
     "https://undated.example" := undated_entry ]}.

End Sample.

(** ** The program *)

Section Datacheck.

(** The constants computed when the module is loaded. *)
Variable TIMESTAMP : string.
Variable DATE : string.

(** [urllib.parse.urlparse]: the scheme and the netloc of the result, or
    [None] when it raises. *)
Variable urlparse : string -> option (string * string).

(** The network, as [requests.get] sees it during one run: the answer to
    a request for a URL, given the requests made before it in the run,
    oldest first. The same URL may be answered differently each time. *)
Variable requests_get : list string -> string -> response.

(** [email_validator.validate_email]: [Some msg] when it raises
    [EmailNotValidError], [msg] being the text of the exception, [None]
    when it accepts the address. *)
Variable validate_email : string -> option string.

(** [datetime.datetime.strptime(s, '%Y-%m-%d')] as a day number, so that
    the [days] of a difference of two results is the difference of the
    numbers; [None] when it raises [ValueError]. *)
Variable strptime : string -> option Z.

(** *** The URL check *)

Definition nonempty (s : string) : bool :=
  match s with EmptyString => false | _ => true end.

Definition is_url_format_valid (url : string) : bool :=
  match urlparse url with
  | Some (scheme, netloc) => nonempty scheme && nonempty netloc
  | None => false
  end.

(** The call of [requests.get]: the URL goes to the log. *)
Definition probe (url : string) : M response :=
  fun w => Ok (requests_get (probes w) url,
               {| url_data := url_data w; probes := probes w ++ [url] |}).

Definition lookup_url (url : string) : M (option entry) :=
  fun w => Ok (url_data w !! url, w).

Definition is_url_ok (url : string) : M entry :=
  do cached <- lookup_url url;
  match cached with
  | Some e =>
      ret {| date := DATE; isOk := isOk e; text := text e |}
  | None =>
      if is_url_format_valid url then
        do r <- probe url;
        match r with
        | Raised class_name =>
            ret {| date := DATE; isOk := false;
                   text := "Exception: " +:+ class_name |}
        | Response status_code =>
            if status_code <? 400 then
              ret {| date := DATE; isOk := true; text := "OK" |}
            else if status_code =? 403 then
              ret {| date := DATE; isOk := true;
                     text := "Can't do full check: HTTP response: Forbidden" |}
            else if status_code =? 429 then
              ret {| date := DATE; isOk := true;
                     text := "Can't do full check: HTTP response: Too Many Requests" |}
            else
              ret {| date := DATE; isOk := false;
                     text := "HTTP response code " +:+ pretty status_code |}
        end
      else
        ret {| date := DATE; isOk := false; text := "No valid URL format" |}
  end.

(** *** The rules of [check_data], in the order of the source *)

(** The coordinates: [lat] and [lon] are locals of [check_data], so an
    iteration that assigns neither leaves them as the iteration before
    did; [None] is the unbound pair. The pair is (lat, lon). *)
Definition locals := option (option Q * option Q).

Definition assign_coordinates (osm_element : osm_element) (prev : locals)
  : outcome locals :=
  let element_type := el_type osm_element in
  if String.eqb element_type "node" then
    Ok (Some (el_lat osm_element, el_lon osm_element))
  else if String.eqb element_type "way" || String.eqb element_type "relation" then
    match el_center osm_element with
    | Some center_coordinates =>
        Ok (Some (center_lat center_coordinates, center_lon center_coordinates))
    | None => Raise AttributeError
    end
  else Ok prev.

(** [[lon, lat]] *)
Definition read_coordinates (l : locals) : outcome (option Q * option Q) :=
  match l with
  | Some (lat, lon) => Ok (lon, lat)
  | None => Raise UnboundLocalError
  end.

Definition resolve_name (element_type : string) (element_id : Z)
  (tags : Tags.t) (p : place_check) : string * place_check :=
  match Tags.lookup "name" tags with
  | Some name => (name, p)
  | None =>
      match Tags.lookup "name:en" tags with
      | Some name => (name, p)
      | None =>
          if String.eqb (Tags.get "amenity" tags) "vending_machine" then
            ("vending machine", p)
          else
            (element_type +:+ " " +:+ pretty element_id,
             add_undefined "name" p)
      end
  end.

Definition set_name (name : string) (p : place_check) : place_check :=
  {| pc_id := pc_id p; pc_type := pc_type p;
     pc_undefined := pc_undefined p; pc_issues := pc_issues p;
     pc_coordinates := pc_coordinates p; pc_name := name;
     pc_diet_vegan := pc_diet_vegan p |}.

Definition set_diet_vegan (v : string) (p : place_check) : place_check :=
  {| pc_id := pc_id p; pc_type := pc_type p;
     pc_undefined := pc_undefined p; pc_issues := pc_issues p;
     pc_coordinates := pc_coordinates p; pc_name := pc_name p;
     pc_diet_vegan := Some v |}.

Definition name_rule (element_type : string) (element_id : Z)
  (tags : Tags.t) (p : place_check) : place_check :=
  let '(name, p) := resolve_name element_type element_id tags p in
  set_name (PyStr.replace PyStr.dquote "”" name) p.

Definition usual_diet (diet_vegan : string) : bool :=
  String.eqb diet_vegan "only" || String.eqb diet_vegan "yes" ||
  String.eqb diet_vegan "limited" || String.eqb diet_vegan "no".

Definition diet_rule (tags : Tags.t) (p : place_check) : place_check :=
  match Tags.lookup "diet:vegan" tags with
  | Some diet_vegan =>
      when (negb (usual_diet diet_vegan))
        (add_issue ("'diet:vegan' has an unusual value: " +:+ diet_vegan))
        (set_diet_vegan diet_vegan p)
  | None => add_undefined "diet:vegan" p
  end.

Definition cuisine_rule (tags : Tags.t) (p : place_check) : place_check :=
  let amenity := Tags.get "amenity" tags in
  when (negb (Tags.mem "cuisine" tags) && negb (Tags.mem "shop" tags) &&
        (negb (String.eqb amenity "cafe") &&
         negb (String.eqb amenity "ice_cream") &&
         negb (String.eqb amenity "bar")))
    (add_undefined "cuisine") p.

Definition address_rule (tags : Tags.t) (p : place_check) : place_check :=
  let p := when (negb (Tags.mem "addr:street" tags))
             (add_undefined "addr:street") p in
  let p := when (negb (Tags.mem "addr:housenumber" tags))
             (add_undefined "addr:housenumber") p in
  let p := when (negb (Tags.mem "addr:city" tags) &&
                 negb (Tags.mem "addr:suburb" tags))
             (add_undefined "addr:city/suburb") p in
  when (negb (Tags.mem "addr:postcode" tags))
    (add_undefined "addr:postcode") p.

Definition facebook_as_website : string :=
  "'facebook' URI as website -> change to 'contact:facebook'".
Definition instagram_as_website : string :=
  "'instagram' URI as website -> change to 'contact:instagram'".

(** The first two steps of the website rule: the local [website] and the
    checks of the tags that are present. *)
Definition website_checks (tags : Tags.t) (p : place_check)
  : M (string * place_check) :=
  let website := "undefined" in
  do (website, p) <-
    match Tags.lookup "contact:website" tags with
    | Some v =>
        do r <- is_url_ok v;
        ret (v, when (negb (isOk r))
                  (add_issue "'contact:website' URI invalid") p)
    | None => ret (website, p)
    end;
  match Tags.lookup "website" tags with
  | Some v =>
      do r <- is_url_ok v;
      ret (v, when (negb (isOk r)) (add_issue "'website' URI invalid") p)
  | None => ret (website, p)
  end.

Definition website_rule (tags : Tags.t) (p : place_check) : M place_check :=
  do (website, p) <- website_checks tags p;
  let p := when (PyStr.contains "facebook" website)
             (add_issue facebook_as_website) p in
  let p := when (PyStr.contains "instagram" website)
             (add_issue instagram_as_website) p in
  ret (when (Tags.mem "contact:website" tags && Tags.mem "website" tags)
         (add_issue "'website' and 'contact:website' defined -> remove one") p).

(** The facebook and the instagram rule differ in their texts only. *)
Definition contact_rule (key root : string)
  (http_text root_text invalid_text : string) (old_key old_text : string)
  (tags : Tags.t) (p : place_check) : M place_check :=
  do p <-
    match Tags.lookup key tags with
    | Some contact =>
        if PyStr.startswith contact "http://" then ret (add_issue http_text p)
        else if negb (PyStr.startswith contact root) then
          ret (add_issue root_text p)
        else
          do r <- is_url_ok contact;
          ret (when (negb (isOk r)) (add_issue invalid_text) p)
    | None => ret p
    end;
  ret (when (Tags.mem old_key tags) (add_issue old_text) p).

Definition facebook_rule : Tags.t -> place_check -> M place_check :=
  contact_rule "contact:facebook" "https://www.facebook.com/"
    "'contact:facebook' starts with 'http' instead of 'https'"
    "'contact:facebook' does not starts with 'https://www.facebook.com/'"
    "'contact:facebook' URI invalid"
    "facebook" "old tag: 'facebook' -> change to 'contact:facebook'".

Definition instagram_rule : Tags.t -> place_check -> M place_check :=
  contact_rule "contact:instagram" "https://www.instagram.com/"
    "'contact:instagram' starts with 'http' instead of 'https'"
    "'contact:instagram' does not starts with 'https://www.instagram.com/'"
    "'contact:instagram' URI invalid"
    "instagram" "old tag 'instagram'".

Definition email_rule (tags : Tags.t) (p : place_check) : place_check :=
  let email :=
    match Tags.lookup "contact:email" tags with
    | Some v => Some v
    | None => Tags.lookup "email" tags
    end in
  let p :=
    match email with
    | Some email =>
        match validate_email email with
        | Some e => add_issue ("E-Mail is not valid: " +:+ e) p
        | None => p
        end
    | None => p
    end in
  when (Tags.mem "contact:email" tags && Tags.mem "email" tags)
    (add_issue "'email' and 'contact:email' defined -> remove one") p.

Definition phone_rule (tags : Tags.t) (p : place_check) : place_check :=
  let p :=
    match Tags.lookup "contact:phone" tags with
    | Some contact_phone =>
        when (negb (PyStr.startswith contact_phone "+"))
          (add_issue "'contact:phone' has no international format like '+44 20 84527891'") p
    | None => p
    end in
  let p :=
    match Tags.lookup "phone" tags with
    | Some phone =>
        when (negb (PyStr.startswith phone "+"))
          (add_issue "'phone' has no international format like '+44 20 84527891'") p
    | None => p
    end in
  when (Tags.mem "contact:phone" tags && Tags.mem "phone" tags)
    (add_issue "'phone' and 'contact:phone' defined -> remove one") p.

Definition covid19_hours (tags : Tags.t) : option string :=
  match Tags.lookup "opening_hours:covid19" tags with
  | Some v =>
      if negb (String.eqb v "same") && negb (String.eqb v "restricted")
      then Some v else None
  | None => None
  end.

Definition opening_hours_rule (tags : Tags.t) (p : place_check) : place_check :=
  let '(opening_hours, p) :=
    match covid19_hours tags with
    | Some v => (v, p)
    | None =>
        match Tags.lookup "opening_hours" tags with
        | Some v => (v, p)
        | None => ("undefined", add_undefined "opening_hours" p)
        end
    end in
  when (PyStr.contains PyStr.lf opening_hours ||
        PyStr.contains PyStr.cr opening_hours)
    (add_issue "There is a line break in 'opening_hours' -> remove") p.

Definition disused_rule (tags : Tags.t) (p : place_check) : place_check :=
  when (PyStr.contains "disused" (PyStr.join (Tags.keys tags)))
    (add_issue "There is a 'disused' tag: Check whether this tag is correct. If so, please remove the diet tags.") p.

(** Count issues, and delete the empty lists. *)
Definition finalize (p : place_check) : feature :=
  {| _id := pc_id p;
     _type := pc_type p;
     issue_number := (length (pc_issues p) + length (pc_undefined p))%nat;
     issues := if Nat.eqb (length (pc_issues p)) 0 then None
               else Some (pc_issues p);
     undefined := if Nat.eqb (length (pc_undefined p)) 0 then None
                  else Some (pc_undefined p);
     name := pc_name p;
     diet_vegan := pc_diet_vegan p;
     coordinates := pc_coordinates p |}.

(** The rules under [if tags.get("diet:vegan", "") != "no"], up to the
    append to ["features"], which is inside that block as well. *)
Definition deep_rules (tags : Tags.t) (p : place_check) : M feature :=
  let p := cuisine_rule tags p in
  let p := address_rule tags p in
  do p <- website_rule tags p;
  do p <- facebook_rule tags p;
  do p <- instagram_rule tags p;
  let p := email_rule tags p in
  let p := phone_rule tags p in
  let p := opening_hours_rule tags p in
  let p := disused_rule tags p in
  ret (finalize p).

(** The body of the loop up to the gate: coordinates, name, diet. *)
Definition head_rules (osm_element : osm_element) (prev : locals)
  : outcome (locals * place_check) :=
  let element_id := el_id osm_element in
  let element_type := el_type osm_element in
  let tags := default [] (el_tags osm_element) in
  match assign_coordinates osm_element prev with
  | Raise e => Raise e
  | Ok l =>
      match read_coordinates l with
      | Raise e => Raise e
      | Ok lon_lat =>
          let p := {| pc_id := element_id; pc_type := element_type;
                      pc_undefined := []; pc_issues := [];
                      pc_coordinates := lon_lat; pc_name := "";
                      pc_diet_vegan := None |} in
          let p := name_rule element_type element_id tags p in
          let p := diet_rule tags p in
          Ok (l, p)
      end
  end.

(** One iteration of the loop of [check_data]: the locals it leaves, and
    the feature it appends, if any. *)
Definition check_element (osm_element : osm_element) (prev : locals)
  : M (locals * option feature) :=
  let tags := default [] (el_tags osm_element) in
  do (l, p) <- lift (head_rules osm_element prev);
  if negb (String.eqb (Tags.get "diet:vegan" tags) "no") then
    do f <- deep_rules tags p;
    ret (l, Some f)
  else ret (l, None).

Fixpoint check_loop (elements : list osm_element) (l : locals)
  (acc : list feature) : M (list feature) :=
  match elements with
  | [] => ret acc
  | osm_element :: rest =>
      do (l', f) <- check_element osm_element l;
      check_loop rest l'
        (match f with Some f => acc ++ [f] | None => acc end)
  end.

Definition check_data (elements : list osm_element) : M check_result :=
  do fs <- check_loop elements None [];
  ret {| _timestamp := TIMESTAMP; features := fs |}.

(** *** [main] *)

(** The loop over [key_list]. *)
Fixpoint prune_keys (key_list : list string) (url_data : gmap string entry)
  : outcome (gmap string entry) :=
  match key_list with
  | [] => Ok url_data
  | element :: rest =>
      match strptime DATE with
      | None => Raise ValueError
      | Some today =>
          match url_data !! element with
          | None => Raise KeyError
          | Some e =>
              match strptime (date e) with
              | None => Raise ValueError
              | Some url_data_date =>
                  let delta_days := today - url_data_date in
                  prune_keys rest
                    (if 28 <? delta_days then delete element url_data
                     else url_data)
              end
          end
      end
  end.

(** [key_list] is the list of the keys of the file; the order of the
    keys decides only which entry raises first, never the result. *)
Definition prune (url_data : gmap string entry) : outcome (gmap string entry) :=
  prune_keys (elements (dom url_data)) url_data.

(** [main], from the two files it reads. An exception leaves no file
    written by the statements after it; [url_data] is a dict when the
    last test is reached, so its branch that only prints is left out. *)
Definition main (url_json_file : gmap string entry)
  (osm_data : option (list osm_element)) : outcome run :=
  match prune url_json_file with
  | Raise e => Raise e
  | Ok pruned =>
      let w := {| url_data := pruned; probes := [] |} in
      match osm_data with
      | Some elements =>
          match check_data elements w with
          | Raise e => Raise e
          | Ok (check_result, w') =>
              Ok {| check_results_file := Some check_result;
                    urldata_file := url_data w';
                    run_probes := probes w' |}
          end
      | None =>
          Ok {| check_results_file := None;
                urldata_file := url_data w;
                run_probes := probes w |}
      end
  end.

(** ** Vocabulary of the properties *)

(** A computation that returns in every state, with a result in [Q],
    and leaves [url_data] as it was. *)
Definition post {A} (m : M A) (Q : A -> Prop) : Prop :=
  forall w, exists a w', m w = Ok (a, w') /\ url_data w' = url_data w /\ Q a.

(** [q] is [p] with findings appended: the rules after the head only
    append to the two lists. *)
Definition extends (p q : place_check) : Prop :=
  pc_id q = pc_id p /\ pc_type q = pc_type p /\
  pc_coordinates q = pc_coordinates p /\ pc_name q = pc_name p /\
  pc_diet_vegan q = pc_diet_vegan p /\
  (exists us, pc_undefined q = pc_undefined p ++ us) /\
  (exists xs, pc_issues q = pc_issues p ++ xs).

Definition gate (osm_element : osm_element) : bool :=
  negb (String.eqb (Tags.get "diet:vegan" (default [] (el_tags osm_element))) "no").

Definition finalized (f : feature) : Prop := exists q, f = finalize q.

(** The test of the loop in [main], when both dates parse. *)
Definition expired (e : entry) : bool :=
  match strptime DATE, strptime (date e) with
  | Some today, Some url_data_date => 28 <? today - url_data_date
  | _, _ => false
  end.

Definition keep (in_keys : bool) (e : entry) : option entry :=
  if in_keys && expired e then None else Some e.

(** The local [website] when the two tags have been read: the later
    assignment, from the [website] tag, wins. *)
Definition examined_url (tags : Tags.t) : string :=
  match Tags.lookup "website" tags with
  | Some v => v
  | None =>
      match Tags.lookup "contact:website" tags with
      | Some v => v
      | None => "undefined"
      end
  end.

(** The resolved URL in the words of the specification: [contact:website]
    if present, else [website]. *)
Definition spec_resolved_url (tags : Tags.t) : option string :=
  match Tags.lookup "contact:website" tags with
  | Some v => Some v
  | None => Tags.lookup "website" tags
  end.

Definition if_invalid (r : entry) (issue : string) : list string :=
  if isOk r then [] else [issue].

(** ** The findings of a report, as lists

    What the rules append, written as the lists they add up to; the
    lemmas below show that the rules compute these. *)

(** [if c: append(s)], as the list it appends. *)
Definition opt (c : bool) (s : string) : list string := if c then [s] else [].

(** The state with [urls] added to the log of probes. *)
Definition log (w : world) (urls : list string) : world :=
  {| url_data := url_data w; probes := probes w ++ urls |}.

Definition append_all (us xs : list string) (p : place_check) : place_check :=
  {| pc_id := pc_id p; pc_type := pc_type p;
     pc_undefined := pc_undefined p ++ us; pc_issues := pc_issues p ++ xs;
     pc_coordinates := pc_coordinates p; pc_name := pc_name p;
     pc_diet_vegan := pc_diet_vegan p |}.

(** The answer of [is_url_ok] in the state [w], read off its run, and
    the URLs it hands to [requests.get] with the table [ud]. *)
Definition url_result (w : world) (url : string) : entry :=
  match is_url_ok url w with
  | Ok (r, _) => r
  | Raise _ => {| date := DATE; isOk := false; text := EmptyString |}
  end.

Definition url_probes (ud : gmap string entry) (url : string) : list string :=
  match ud !! url with
  | Some _ => []
  | None => if is_url_format_valid url then [url] else []
  end.

(** [is_url_ok(url)['isOk'] is False] *)
Definition url_invalid (w : world) (url : string) : bool :=
  negb (isOk (url_result w url)).

(** The tag [k] is present and its value passes [P]. *)
Definition tag_is (P : string -> bool) (k : string) (tags : Tags.t) : bool :=
  match Tags.lookup k tags with Some v => P v | None => false end.

(** The probes of the check of the tag [k], made when its value passes [P]. *)
Definition tag_probes (ud : gmap string entry) (P : string -> bool)
  (k : string) (tags : Tags.t) : list string :=
  match Tags.lookup k tags with
  | Some v => if P v then url_probes ud v else []
  | None => []
  end.

(** The report when the head of the loop body has run. *)
Definition head_report (osm_element : osm_element)
  (lon_lat : option Q * option Q) : place_check :=
  let tags := default [] (el_tags osm_element) in
  diet_rule tags
    (name_rule (el_type osm_element) (el_id osm_element) tags
       {| pc_id := el_id osm_element; pc_type := el_type osm_element;
          pc_undefined := []; pc_issues := [];
          pc_coordinates := lon_lat; pc_name := "";
          pc_diet_vegan := None |}).

Definition name_missing (tags : Tags.t) : bool :=
  negb (Tags.mem "name" tags) && negb (Tags.mem "name:en" tags) &&
  negb (String.eqb (Tags.get "amenity" tags) "vending_machine").

Definition head_undefined (tags : Tags.t) : list string :=
  opt (name_missing tags) "name" ++
  opt (negb (Tags.mem "diet:vegan" tags)) "diet:vegan".

Definition head_issues (tags : Tags.t) : list string :=
  opt (tag_is (fun v => negb (usual_diet v)) "diet:vegan" tags)
    ("'diet:vegan' has an unusual value: " +:+ Tags.get "diet:vegan" tags).

Definition cuisine_missing (tags : Tags.t) : bool :=
  negb (Tags.mem "cuisine" tags) && negb (Tags.mem "shop" tags) &&
  (negb (String.eqb (Tags.get "amenity" tags) "cafe") &&
   negb (String.eqb (Tags.get "amenity" tags) "ice_cream") &&
   negb (String.eqb (Tags.get "amenity" tags) "bar")).

(** The local [opening_hours] of the opening hours rule. *)
Definition hours_value (tags : Tags.t) : string :=
  match covid19_hours tags with
  | Some v => v
  | None =>
      match Tags.lookup "opening_hours" tags with
      | Some v => v
      | None => "undefined"
      end
  end.

Definition hours_missing (tags : Tags.t) : bool :=
  match covid19_hours tags with
  | Some _ => false
  | None => negb (Tags.mem "opening_hours" tags)
  end.

Definition deep_undefined (tags : Tags.t) : list string :=
  opt (cuisine_missing tags) "cuisine" ++
  opt (negb (Tags.mem "addr:street" tags)) "addr:street" ++
  opt (negb (Tags.mem "addr:housenumber" tags)) "addr:housenumber" ++
  opt (negb (Tags.mem "addr:city" tags) && negb (Tags.mem "addr:suburb" tags))
    "addr:city/suburb" ++
  opt (negb (Tags.mem "addr:postcode" tags)) "addr:postcode" ++
  opt (hours_missing tags) "opening_hours".

(** The check of [website] comes after the one of [contact:website]. *)
Definition website_issues (w : world) (tags : Tags.t) : list string :=
  opt (tag_is (url_invalid w) "contact:website" tags)
    "'contact:website' URI invalid" ++
  opt (tag_is
         (url_invalid
            (log w (tag_probes (url_data w) (fun _ => true)
                      "contact:website" tags)))
         "website" tags) "'website' URI invalid" ++
  opt (PyStr.contains "facebook" (examined_url tags)) facebook_as_website ++
  opt (PyStr.contains "instagram" (examined_url tags)) instagram_as_website ++
  opt (Tags.mem "contact:website" tags && Tags.mem "website" tags)
    "'website' and 'contact:website' defined -> remove one".

(** The value of a contact tag goes to [is_url_ok]. *)
Definition rooted (root v : string) : bool :=
  negb (PyStr.startswith v "http://") && PyStr.startswith v root.

Definition contact_issues (w : world) (key root : string)
  (http_text root_text invalid_text : string) (old_key old_text : string)
  (tags : Tags.t) : list string :=
  opt (tag_is (fun v => PyStr.startswith v "http://") key tags) http_text ++
  opt (tag_is (fun v => negb (PyStr.startswith v "http://") &&
                        negb (PyStr.startswith v root)) key tags) root_text ++
  opt (tag_is (fun v => rooted root v && url_invalid w v) key tags)
    invalid_text ++
  opt (Tags.mem old_key tags) old_text.

Definition facebook_issues (w : world) : Tags.t -> list string :=
  contact_issues w "contact:facebook" "https://www.facebook.com/"
    "'contact:facebook' starts with 'http' instead of 'https'"
    "'contact:facebook' does not starts with 'https://www.facebook.com/'"
    "'contact:facebook' URI invalid"
    "facebook" "old tag: 'facebook' -> change to 'contact:facebook'".

Definition instagram_issues (w : world) : Tags.t -> list string :=
  contact_issues w "contact:instagram" "https://www.instagram.com/"
    "'contact:instagram' starts with 'http' instead of 'https'"
    "'contact:instagram' does not starts with 'https://www.instagram.com/'"
    "'contact:instagram' URI invalid"
    "instagram" "old tag 'instagram'".

(** The local [email] of the e-mail rule, when it is assigned. *)
Definition chosen_email (tags : Tags.t) : option string :=
  match Tags.lookup "contact:email" tags with
  | Some v => Some v
  | None => Tags.lookup "email" tags
  end.

Definition email_error (tags : Tags.t) : option string :=
  match chosen_email tags with
  | Some email => validate_email email
  | None => None
  end.

Definition email_issues (tags : Tags.t) : list string :=
  match email_error tags with
  | Some e => ["E-Mail is not valid: " +:+ e]
  | None => []
  end ++
  opt (Tags.mem "contact:email" tags && Tags.mem "email" tags)
    "'email' and 'contact:email' defined -> remove one".

Definition phone_issues (tags : Tags.t) : list string :=
  opt (tag_is (fun v => negb (PyStr.startswith v "+")) "contact:phone" tags)
    "'contact:phone' has no international format like '+44 20 84527891'" ++
  opt (tag_is (fun v => negb (PyStr.startswith v "+")) "phone" tags)
    "'phone' has no international format like '+44 20 84527891'" ++
  opt (Tags.mem "contact:phone" tags && Tags.mem "phone" tags)
    "'phone' and 'contact:phone' defined -> remove one".

Definition hours_issues (tags : Tags.t) : list string :=
  opt (PyStr.contains PyStr.lf (hours_value tags) ||
       PyStr.contains PyStr.cr (hours_value tags))
    "There is a line break in 'opening_hours' -> remove".

Definition disused_issues (tags : Tags.t) : list string :=
  opt (PyStr.contains "disused" (PyStr.join (Tags.keys tags)))
    "There is a 'disused' tag: Check whether this tag is correct. If so, please remove the diet tags.".

(** The states in which the facebook and the instagram rule run: the
    probes of the rules before them are in the log. *)
Definition after_website (w : world) (tags : Tags.t) : world :=
  log w (tag_probes (url_data w) (fun _ => true) "contact:website" tags ++
         tag_probes (url_data w) (fun _ => true) "website" tags).

Definition after_facebook (w : world) (tags : Tags.t) : world :=
  log (after_website w tags)
    (tag_probes (url_data w) (rooted "https://www.facebook.com/")
       "contact:facebook" tags).

Definition deep_issues (w : world) (tags : Tags.t) : list string :=
  website_issues w tags ++ facebook_issues (after_website w tags) tags ++
  instagram_issues (after_facebook w tags) tags ++
  email_issues tags ++ phone_issues tags ++
  hours_issues tags ++ disused_issues tags.

Definition deep_probes (ud : gmap string entry) (tags : Tags.t) : list string :=
  tag_probes ud (fun _ => true) "contact:website" tags ++
  tag_probes ud (fun _ => true) "website" tags ++
  tag_probes ud (rooted "https://www.facebook.com/") "contact:facebook" tags ++
  tag_probes ud (rooted "https://www.instagram.com/") "contact:instagram" tags.

(** The elements whose coordinates the loop can assign. *)
Definition resolvable (osm_element : osm_element) : Prop :=
  el_type osm_element = "node" \/
  ((el_type osm_element = "way" \/ el_type osm_element = "relation") /\
   el_center osm_element <> None).

(** ** Properties of the URL check *)

Ltac run_M := unfold bind, ret, lift, lookup_url, probe in *; simpl in *.

(** Keep of the context what the goal speaks of. *)
Ltac only_goal := repeat match goal with x : _ |- _ => clear x end.

Lemma is_url_ok_hit (url : string) (w : world) (e : entry) :
  url_data w !! url = Some e ->
  is_url_ok url w = Ok ({| date := DATE; isOk := isOk e; text := text e |}, w).
Proof. intros H. unfold is_url_ok. run_M. now rewrite H. Qed.

(** The check returns, whatever the URL, and leaves [url_data] as it was. *)
Lemma is_url_ok_returns (url : string) (w : world) :
  exists r w', is_url_ok url w = Ok (r, w') /\ url_data w' = url_data w.
Proof.
  unfold is_url_ok. run_M.
  destruct (url_data w !! url) as [e|]; [eauto|].
  destruct (is_url_format_valid url); [|eauto].
  destruct (requests_get (probes w) url) as [c|code]; [eauto|].
  destruct (code <? 400); [eauto|].
  destruct (code =? 403); [eauto|].
  destruct (code =? 429); eauto.
Qed.

(** C2, at the code: a URL that was not in [url_data] when [is_url_ok]
    looked it up is not in [url_data] when the check has completed; the
    entry that was computed is returned and not stored. *)
Theorem miss_is_not_stored (url : string) (w : world) :
  url_data w !! url = None ->
  exists r w', is_url_ok url w = Ok (r, w') /\ url_data w' !! url = None.
Proof.
  intros Hmiss.
  destruct (is_url_ok_returns url w) as (r & w' & Hrun & Hsame).
  exists r, w'. split; [exact Hrun|]. now rewrite Hsame.
Qed.

(** C5: for a URL that is not in the cache, has a valid format and gets a
    response, a status code below 400 gives the verdict true with the text
    OK, 403 and 429 give true with their texts, and every other code from
    400 on gives false with the code in the text, so 404 gives false with
    the text "HTTP response code 404". *)
Theorem status_code_verdict (url : string) (w : world) (status_code : Z) :
  url_data w !! url = None ->
  is_url_format_valid url = true ->
  requests_get (probes w) url = Response status_code ->
  exists r w',
    is_url_ok url w = Ok (r, w') /\
    (status_code < 400 -> isOk r = true /\ text r = "OK") /\
    (status_code = 403 ->
     isOk r = true /\
     text r = "Can't do full check: HTTP response: Forbidden") /\
    (status_code = 429 ->
     isOk r = true /\
     text r = "Can't do full check: HTTP response: Too Many Requests") /\
    (400 <= status_code -> status_code <> 403 -> status_code <> 429 ->
     isOk r = false /\
     text r = "HTTP response code " +:+ pretty status_code) /\
    (status_code = 404 ->
     isOk r = false /\ text r = "HTTP response code 404").
Proof.
  intros Hmiss Hvalid Hresp.
  unfold is_url_ok. run_M. rewrite Hmiss, Hvalid, Hresp.
  destruct (Z.ltb_spec status_code 400) as [Hlt|Hge].
  { eexists _, _. split; [reflexivity|]. simpl.
    repeat split; intros; subst; first [lia | reflexivity]. }
  destruct (Z.eqb_spec status_code 403) as [->|H403].
  { eexists _, _. split; [reflexivity|]. simpl.
    repeat split; intros; first [lia | reflexivity]. }
  destruct (Z.eqb_spec status_code 429) as [->|H429].
  { eexists _, _. split; [reflexivity|]. simpl.
    repeat split; intros; first [lia | reflexivity]. }
  eexists _, _. split; [reflexivity|]. simpl.
  repeat split; intros; subst; first [lia | reflexivity].
Qed.

(** C6: a URL that is not in the cache and whose format is not valid is
    answered without a call of [requests.get], the log of probes and the
    whole state being as before, and the answer is the verdict false with
    the text "No valid URL format". *)
Theorem malformed_url_is_not_probed (url : string) (w : world) :
  url_data w !! url = None ->
  is_url_format_valid url = false ->
  is_url_ok url w =
    Ok ({| date := DATE; isOk := false; text := "No valid URL format" |}, w).
Proof.
  intros Hmiss Hbad. unfold is_url_ok. run_M. now rewrite Hmiss, Hbad.
Qed.


(** ** Properties of the rules *)

Lemma post_ret {A} (a : A) (Q : A -> Prop) : Q a -> post (ret a) Q.
Proof. intros H w. exists a, w. auto. Qed.

Lemma post_bind {A B} (m : M A) (k : A -> M B) (Q : A -> Prop) (R : B -> Prop) :
  post m Q -> (forall a, Q a -> post (k a) R) -> post (bind m k) R.
Proof.
  intros Hm Hk w. destruct (Hm w) as (a & w1 & E1 & U1 & Ha).
  destruct (Hk a Ha w1) as (b & w2 & E2 & U2 & Hb).
  exists b, w2. unfold bind. rewrite E1. repeat split; congruence.
Qed.

Lemma post_is_url_ok (url : string) : post (is_url_ok url) (fun _ => True).
Proof.
  intros w. destruct (is_url_ok_returns url w) as (r & w' & E & U). eauto.
Qed.

Lemma extends_refl (p : place_check) : extends p p.
Proof.
  unfold extends. repeat split; try reflexivity;
    exists []; now rewrite app_nil_r.
Qed.

Lemma extends_add_issue (p q : place_check) (s : string) :
  extends p q -> extends p (add_issue s q).
Proof.
  intros (H1 & H2 & H3 & H4 & H5 & [us Hu] & [xs Hx]).
  unfold extends; simpl. repeat split; try assumption.
  - now exists us.
  - exists (xs ++ [s]). now rewrite Hx, app_assoc.
Qed.

Lemma extends_add_undefined (p q : place_check) (s : string) :
  extends p q -> extends p (add_undefined s q).
Proof.
  intros (H1 & H2 & H3 & H4 & H5 & [us Hu] & [xs Hx]).
  unfold extends; simpl. repeat split; try assumption.
  - exists (us ++ [s]). now rewrite Hu, app_assoc.
  - now exists xs.
Qed.

Lemma extends_when_issue (p q : place_check) (c : bool) (s : string) :
  extends p q -> extends p (when c (add_issue s) q).
Proof. destruct c; simpl; auto using extends_add_issue. Qed.

Lemma extends_when_undefined (p q : place_check) (c : bool) (s : string) :
  extends p q -> extends p (when c (add_undefined s) q).
Proof. destruct c; simpl; auto using extends_add_undefined. Qed.

Create HintDb rules.
Hint Resolve extends_refl extends_add_issue extends_add_undefined
  extends_when_issue extends_when_undefined : rules.

Lemma cuisine_rule_extends tags p q :
  extends p q -> extends p (cuisine_rule tags q).
Proof. unfold cuisine_rule. auto with rules. Qed.

Lemma address_rule_extends tags p q :
  extends p q -> extends p (address_rule tags q).
Proof. unfold address_rule. auto 6 with rules. Qed.

Lemma email_rule_extends tags p q :
  extends p q -> extends p (email_rule tags q).
Proof.
  unfold email_rule. intros H.
  destruct (Tags.lookup "contact:email" tags) as [v|];
    [|destruct (Tags.lookup "email" tags) as [v|]];
    try destruct (validate_email v); auto with rules.
Qed.

Lemma phone_rule_extends tags p q :
  extends p q -> extends p (phone_rule tags q).
Proof.
  unfold phone_rule. intros H.
  destruct (Tags.lookup "contact:phone" tags), (Tags.lookup "phone" tags);
    auto 6 with rules.
Qed.

Lemma opening_hours_rule_extends tags p q :
  extends p q -> extends p (opening_hours_rule tags q).
Proof.
  unfold opening_hours_rule. intros H.
  destruct (covid19_hours tags); [auto with rules|].
  destruct (Tags.lookup "opening_hours" tags); auto with rules.
Qed.

Lemma disused_rule_extends tags p q :
  extends p q -> extends p (disused_rule tags q).
Proof. unfold disused_rule. auto with rules. Qed.

Lemma website_checks_extends tags p q :
  extends p q ->
  post (website_checks tags q) (fun r => extends p (snd r)).
Proof.
  intros H. unfold website_checks.
  eapply post_bind with (Q := fun r => extends p (snd r)).
  - destruct (Tags.lookup "contact:website" tags).
    + eapply post_bind; [apply post_is_url_ok|].
      intros r _. apply post_ret. simpl. auto with rules.
    + now apply post_ret.
  - intros [website q'] Hq'. simpl in Hq'.
    destruct (Tags.lookup "website" tags).
    + eapply post_bind; [apply post_is_url_ok|].
      intros r _. apply post_ret. simpl. auto with rules.
    + now apply post_ret.
Qed.

Lemma website_rule_extends tags p q :
  extends p q -> post (website_rule tags q) (extends p).
Proof.
  intros H. unfold website_rule.
  eapply post_bind with (Q := fun r => extends p (snd r));
    [apply website_checks_extends, H|].
  intros [website q'] Hq'. simpl in Hq'.
  apply post_ret. auto 6 with rules.
Qed.

Lemma contact_rule_extends key root t1 t2 t3 old_key old_text tags p q :
  extends p q ->
  post (contact_rule key root t1 t2 t3 old_key old_text tags q) (extends p).
Proof.
  intros H. unfold contact_rule.
  eapply post_bind with (Q := extends p).
  - destruct (Tags.lookup key tags) as [contact|]; [|now apply post_ret].
    destruct (PyStr.startswith contact "http://");
      [apply post_ret; auto with rules|].
    destruct (negb (PyStr.startswith contact root));
      [apply post_ret; auto with rules|].
    eapply post_bind; [apply post_is_url_ok|].
    intros r _. apply post_ret. auto with rules.
  - intros q' Hq'. apply post_ret. auto with rules.
Qed.

(** The rules behind the gate return in every state, and their report is
    the head of the report with findings appended, finalized. *)
Lemma deep_rules_post tags p :
  post (deep_rules tags p) (fun f => exists q, extends p q /\ f = finalize q).
Proof.
  unfold deep_rules.
  eapply post_bind.
  { apply website_rule_extends, address_rule_extends, cuisine_rule_extends,
      extends_refl. }
  intros q1 H1. eapply post_bind.
  { apply contact_rule_extends, H1. }
  intros q2 H2. eapply post_bind.
  { apply contact_rule_extends, H2. }
  intros q3 H3. apply post_ret. eexists. split; [|reflexivity].
  apply disused_rule_extends, opening_hours_rule_extends,
    phone_rule_extends, email_rule_extends, H3.
Qed.


(** ** Properties of the loop *)

Lemma name_rule_coordinates element_type element_id tags p :
  pc_coordinates (name_rule element_type element_id tags p) = pc_coordinates p.
Proof.
  unfold name_rule, resolve_name.
  destruct (Tags.lookup "name" tags); [reflexivity|].
  destruct (Tags.lookup "name:en" tags); [reflexivity|].
  destruct (String.eqb _ _); reflexivity.
Qed.

Lemma diet_rule_coordinates tags p :
  pc_coordinates (diet_rule tags p) = pc_coordinates p.
Proof.
  unfold diet_rule. destruct (Tags.lookup "diet:vegan" tags) as [v|];
    [|reflexivity].
  destruct (negb (usual_diet v)); reflexivity.
Qed.

(** The head of the loop body fails only where the coordinates do. *)
Lemma head_rules_resolved osm_element prev lat lon :
  assign_coordinates osm_element prev = Ok (Some (lat, lon)) ->
  exists p, head_rules osm_element prev = Ok (Some (lat, lon), p) /\
            pc_coordinates p = (lon, lat).
Proof.
  intros H. unfold head_rules. rewrite H. simpl.
  eexists. split; [reflexivity|].
  now rewrite diet_rule_coordinates, name_rule_coordinates.
Qed.

(** What one iteration does, by the outcome of its head and by the gate. *)
Lemma check_element_cases osm_element prev w :
  match head_rules osm_element prev with
  | Raise e => check_element osm_element prev w = Raise e
  | Ok (l, p) =>
      if gate osm_element then
        exists f w', check_element osm_element prev w = Ok ((l, Some f), w') /\
                     url_data w' = url_data w /\
                     exists q, extends p q /\ f = finalize q
      else check_element osm_element prev w = Ok ((l, None), w)
  end.
Proof.
  unfold check_element, gate, bind, lift.
  destruct (head_rules osm_element prev) as [[l p]|e]; [|reflexivity].
  destruct (negb _); [|reflexivity].
  destruct (deep_rules_post (default [] (el_tags osm_element)) p w)
    as (f & w' & E & U & Hf).
  exists f, w'. rewrite E. auto.
Qed.

Lemma check_element_finalized osm_element prev w l f w' :
  check_element osm_element prev w = Ok ((l, Some f), w') -> finalized f.
Proof.
  intros H. pose proof (check_element_cases osm_element prev w) as C.
  destruct (head_rules osm_element prev) as [[l0 p]|e]; [|congruence].
  destruct (gate osm_element).
  - destruct C as (f0 & w0 & E & _ & q & _ & ->).
    rewrite E in H. injection H as <- <- <-. now exists q.
  - congruence.
Qed.

Lemma check_loop_finalized elements :
  forall l acc w fs w',
    check_loop elements l acc w = Ok (fs, w') ->
    Forall finalized acc -> Forall finalized fs.
Proof.
  induction elements as [|el rest IH]; simpl; intros l acc w fs w' H Hacc.
  - unfold ret in H. now injection H as <- <-.
  - unfold bind in H.
    destruct (check_element el l w) as [[[l' f] w1]|e] eqn:E; [|discriminate].
    apply IH in H; [exact H|].
    destruct f as [f|]; [|exact Hacc].
    apply Forall_app. split; [exact Hacc|].
    constructor; [|constructor]. eapply check_element_finalized, E.
Qed.

Lemma finalize_counts (p : place_check) :
  let f := finalize p in
  issue_number f =
    (length (default [] (issues f)) + length (default [] (undefined f)))%nat /\
  issues f <> Some [] /\ undefined f <> Some [] /\
  (issue_number f = 0%nat <-> issues f = None /\ undefined f = None).
Proof.
  unfold finalize; simpl.
  destruct (pc_issues p) as [|i is_], (pc_undefined p) as [|u us]; simpl;
    repeat split; try congruence; try lia; intros; try discriminate.
  all: match goal with H : _ /\ _ |- _ => destruct H; discriminate end.
Qed.

(** C9: in every report of [check_data], [issue_number] is the length of
    the [issues] list plus the length of the [undefined] list as they
    are in the report, a list that is absent counting 0; neither list is
    present and empty; so [issue_number] is 0 exactly when both keys are
    absent. *)
Theorem issue_number_counts_serialized elements w result w' f :
  check_data elements w = Ok (result, w') ->
  In f (features result) ->
  issue_number f =
    (length (default [] (issues f)) + length (default [] (undefined f)))%nat /\
  issues f <> Some [] /\ undefined f <> Some [] /\
  (issue_number f = 0%nat <-> issues f = None /\ undefined f = None).
Proof.
  unfold check_data, bind, ret. intros H Hin.
  destruct (check_loop elements None [] w) as [[fs w1]|e] eqn:E; [|discriminate].
  injection H as <- <-. simpl in Hin.
  apply check_loop_finalized in E; [|constructor].
  rewrite Forall_forall in E. apply list_elem_of_In in Hin.
  destruct (E f Hin) as [q ->].
  apply finalize_counts.
Qed.

(** C1, as the code has it: for an element whose [diet:vegan] is exactly
    "no" and whose coordinates resolve, the iteration runs none of the rules
    behind the gate, leaves the state as it was (no URL is checked), and
    appends no report: the loop goes on with the list of features it had. *)
Theorem diet_no_appends_no_report osm_element prev lat lon w :
  Tags.get "diet:vegan" (default [] (el_tags osm_element)) = "no" ->
  assign_coordinates osm_element prev = Ok (Some (lat, lon)) ->
  check_element osm_element prev w = Ok ((Some (lat, lon), None), w) /\
  forall rest acc,
    check_loop (osm_element :: rest) prev acc w =
    check_loop rest (Some (lat, lon)) acc w.
Proof.
  intros Hno Hc.
  destruct (head_rules_resolved _ _ _ _ Hc) as (p & Hh & _).
  pose proof (check_element_cases osm_element prev w) as C.
  rewrite Hh in C. unfold gate in C. rewrite Hno in C. simpl in C.
  split; [exact C|]. intros rest acc. simpl. unfold bind. now rewrite C.
Qed.


(** ** Coordinates *)




(** ** Pruning *)

Lemma prune_keys_lookup key_list :
  forall (m m' : gmap string entry),
    prune_keys key_list m = Ok m' ->
    forall url,
      m' !! url = m !! url ≫= keep (bool_decide (url ∈ key_list)).
Proof.
  induction key_list as [|k rest IH]; simpl; intros m m' H url.
  - injection H as <-. destruct (m !! url); reflexivity.
  - destruct (strptime DATE) as [today|] eqn:Et; [|discriminate].
    destruct (m !! k) as [e|] eqn:Ek; [|discriminate].
    destruct (strptime (date e)) as [d|] eqn:Ed; [|discriminate].
    rewrite (IH _ _ H url). clear IH H.
    assert (Hexp : expired e = (28 <? today - d))
      by (unfold expired; now rewrite Et, Ed).
    destruct (decide (url = k)) as [->|Hne].
    + rewrite (bool_decide_eq_true_2 (k ∈ k :: rest))
        by apply list_elem_of_here.
      destruct (28 <? today - d) eqn:Eb.
      * rewrite lookup_delete_eq, Ek. simpl. unfold keep.
        now rewrite Hexp.
      * rewrite Ek. simpl. unfold keep. rewrite Hexp.
        now rewrite andb_false_r.
    + assert (Hk : bool_decide (url ∈ k :: rest) = bool_decide (url ∈ rest)).
      { apply bool_decide_ext. rewrite elem_of_cons. tauto. }
      rewrite Hk.
      destruct (28 <? today - d); [now rewrite lookup_delete_ne|reflexivity].
Qed.

Lemma prune_keys_parsed key_list :
  forall (m m' : gmap string entry),
    prune_keys key_list m = Ok m' ->
    forall k, k ∈ key_list ->
      exists today e d,
        strptime DATE = Some today /\ m !! k = Some e /\
        strptime (date e) = Some d.
Proof.
  induction key_list as [|k0 rest IH]; simpl; intros m m' H k Hin.
  - inversion Hin.
  - destruct (strptime DATE) as [today|] eqn:Et; [|discriminate].
    destruct (m !! k0) as [e|] eqn:Ek; [|discriminate].
    destruct (strptime (date e)) as [d|] eqn:Ed; [|discriminate].
    apply elem_of_cons in Hin as [->|Hin]; [now exists today, e, d|].
    destruct (IH _ _ H k Hin) as (today' & e' & d' & E1 & E2 & E3).
    exists today', e', d'. repeat split; try assumption.
    destruct (28 <? today - d); [|exact E2].
    apply lookup_delete_Some in E2. tauto.
Qed.

Lemma prune_keys_returns key_list today :
  strptime DATE = Some today ->
  NoDup key_list ->
  forall (m : gmap string entry),
    (forall k, k ∈ key_list ->
       exists e d, m !! k = Some e /\ strptime (date e) = Some d) ->
    exists m', prune_keys key_list m = Ok m'.
Proof.
  intros Et. induction key_list as [|k rest IH]; simpl; intros Hnd m Hall.
  - eauto.
  - rewrite Et. apply NoDup_cons in Hnd as [Hk Hnd].
    destruct (Hall k) as (e & d & -> & ->); [apply list_elem_of_here|].
    apply IH; [exact Hnd|]. intros k' Hk'.
    destruct (Hall k') as (e' & d' & E1 & E2); [now apply list_elem_of_further|].
    exists e', d'. split; [|exact E2].
    destruct (28 <? today - d); [|exact E1].
    rewrite lookup_delete_ne; [exact E1|]. intros ->. contradiction.
Qed.

Lemma key_list_spec (m : gmap string entry) (k : string) :
  k ∈ elements (dom m) <-> is_Some (m !! k).
Proof. now rewrite elem_of_elements, elem_of_dom. Qed.

Lemma prune_lookup (m m' : gmap string entry) :
  prune m = Ok m' -> forall url, m' !! url = m !! url ≫= keep true.
Proof.
  intros H url. rewrite (prune_keys_lookup _ _ _ H url).
  destruct (m !! url) as [e|] eqn:E; [|reflexivity]. simpl.
  rewrite bool_decide_eq_true_2; [reflexivity|].
  apply key_list_spec. eauto.
Qed.

(** Pruning returns when [DATE] and the date of every entry parse. *)
Lemma prune_returns (m : gmap string entry) (today : Z) :
  strptime DATE = Some today ->
  (forall url e, m !! url = Some e -> exists d, strptime (date e) = Some d) ->
  exists m', prune m = Ok m'.
Proof.
  intros Et Hall. apply (prune_keys_returns _ today Et).
  - apply NoDup_elements.
  - intros k Hk. apply key_list_spec in Hk as [e He].
    destruct (Hall k e He) as [d Hd]. eauto.
Qed.

(** An expired entry might as well not have been in the file. *)
Lemma prune_delete_expired (m m' : gmap string entry) (url : string) (e : entry) :
  prune m = Ok m' -> m !! url = Some e -> expired e = true ->
  prune (delete url m) = Ok m'.
Proof.
  intros H Hu Hexp.
  destruct (prune_keys_parsed _ _ _ H url) as (today & _ & _ & Et & _);
    [apply key_list_spec; eauto|].
  destruct (prune_keys_returns (elements (dom (delete url m))) today Et)
    with (m := delete url m) as [m2 H2].
  { apply NoDup_elements. }
  { intros k Hk. apply key_list_spec in Hk as [e' He'].
    pose proof He' as Hin. apply lookup_delete_Some in Hin as [_ Hin].
    destruct (prune_keys_parsed _ _ _ H k) as (_ & e2 & d & _ & E2 & Ed);
      [apply key_list_spec; eauto|].
    exists e', d. split; [exact He'|]. congruence. }
  unfold prune at 1. rewrite H2. f_equal. apply map_eq. intros x.
  rewrite (prune_lookup _ _ H x).
  change (prune (delete url m) = Ok m2) in H2.
  rewrite (prune_lookup _ _ H2 x).
  destruct (decide (x = url)) as [->|Hne].
  - rewrite lookup_delete_eq, Hu. simpl. unfold keep. now rewrite Hexp.
  - now rewrite lookup_delete_ne.
Qed.

Lemma check_loop_url_data elements :
  forall l acc w fs w',
    check_loop elements l acc w = Ok (fs, w') -> url_data w' = url_data w.
Proof.
  induction elements as [|el rest IH]; simpl; intros l acc w fs w' H.
  - unfold ret in H. now injection H as <- <-.
  - unfold bind in H.
    destruct (check_element el l w) as [[[l' f] w1]|e] eqn:E; [|discriminate].
    apply IH in H. rewrite H. clear H IH.
    pose proof (check_element_cases el l w) as C.
    destruct (head_rules el l) as [[l0 p]|e]; [|congruence].
    destruct (gate el).
    + destruct C as (f0 & w0 & E0 & U & _). congruence.
    + congruence.
Qed.

(** The file that [main] writes back is the file it read, pruned. *)
Lemma main_urldata_file url_json_file osm_data r :
  main url_json_file osm_data = Ok r ->
  prune url_json_file = Ok (urldata_file r).
Proof.
  unfold main. destruct (prune url_json_file) as [pruned|e]; [|discriminate].
  destruct osm_data as [elements|].
  - unfold check_data, bind, ret.
    destruct (check_loop elements None [] _) as [[fs w']|e] eqn:E; [|discriminate].
    apply check_loop_url_data in E. simpl in E.
    intros [= <-]. simpl. now rewrite E.
  - now intros [= <-].
Qed.

(** C7: of a file whose run completes, every date parses; an entry more
    than 28 days old is in no lookup of the run (the run is the one of the
    file without the entry) and not in the file written back; an entry of
    28 days or less is written back as it was; and no entry is added. *)
Theorem expired_entries_are_pruned url_json_file osm_data r :
  main url_json_file osm_data = Ok r ->
  (forall url e, url_json_file !! url = Some e ->
     exists today d,
       strptime DATE = Some today /\ strptime (date e) = Some d /\
       (28 < today - d ->
        urldata_file r !! url = None /\
        main (delete url url_json_file) osm_data = Ok r) /\
       (today - d <= 28 -> urldata_file r !! url = Some e)) /\
  (forall url, url_json_file !! url = None -> urldata_file r !! url = None).
Proof.
  intros Hmain. pose proof (main_urldata_file _ _ _ Hmain) as Hp.
  split.
  - intros url e Hu.
    destruct (prune_keys_parsed _ _ _ Hp url) as (today & e' & d & Et & E' & Ed);
      [apply key_list_spec; eauto|].
    assert (e' = e) as -> by congruence.
    assert (Hexp : expired e = (28 <? today - d))
      by (unfold expired; now rewrite Et, Ed).
    exists today, d.
    split; [exact Et|]. split; [exact Ed|]. split; [intros Hgt; split|].
    + rewrite (prune_lookup _ _ Hp url), Hu. simpl. unfold keep.
      rewrite Hexp. simpl. apply Z.ltb_lt in Hgt. now rewrite Hgt.
    + assert (Hd : prune (delete url url_json_file) = Ok (urldata_file r)).
      { eapply prune_delete_expired; eauto. rewrite Hexp. now apply Z.ltb_lt. }
      revert Hmain. unfold main. rewrite Hp, Hd. auto.
    + intros Hle. rewrite (prune_lookup _ _ Hp url), Hu. simpl. unfold keep.
      rewrite Hexp. simpl.
      destruct (Z.ltb_spec 28 (today - d)); [lia|reflexivity].
  - intros url Hu. now rewrite (prune_lookup _ _ Hp url), Hu.
Qed.


(** ** The website rule *)

Lemma website_checks_spec tags p w :
  exists w1 w2 a1 a2 q,
    website_checks tags p w = Ok ((examined_url tags, q), w2) /\
    pc_undefined q = pc_undefined p /\
    pc_issues q = pc_issues p ++ a1 ++ a2 /\
    match Tags.lookup "contact:website" tags with
    | Some v => exists r, is_url_ok v w = Ok (r, w1) /\
                          a1 = if_invalid r "'contact:website' URI invalid"
    | None => w1 = w /\ a1 = []
    end /\
    match Tags.lookup "website" tags with
    | Some v => exists r, is_url_ok v w1 = Ok (r, w2) /\
                          a2 = if_invalid r "'website' URI invalid"
    | None => w2 = w1 /\ a2 = []
    end.
Proof.
  unfold website_checks, examined_url, bind, ret.
  destruct (Tags.lookup "contact:website" tags) as [cw|].
  - destruct (is_url_ok_returns cw w) as (r1 & w1 & E1 & _).
    destruct (Tags.lookup "website" tags) as [ws|].
    + destruct (is_url_ok_returns ws w1) as (r2 & w2 & E2 & _).
      exists w1, w2, (if_invalid r1 "'contact:website' URI invalid"),
        (if_invalid r2 "'website' URI invalid"). eexists.
      split; [rewrite E1, E2; reflexivity|]. unfold if_invalid.
      split; [destruct (isOk r1), (isOk r2); reflexivity|].
      split; [destruct (isOk r1), (isOk r2); simpl;
              rewrite <- ?app_assoc, ?app_nil_r; reflexivity|].
      split; [exists r1|exists r2]; auto.
    + exists w1, w1, (if_invalid r1 "'contact:website' URI invalid"), [].
      eexists. split; [rewrite E1; reflexivity|]. unfold if_invalid.
      split; [destruct (isOk r1); reflexivity|].
      split; [destruct (isOk r1); simpl; rewrite ?app_nil_r; reflexivity|].
      split; [exists r1|]; auto.
  - destruct (Tags.lookup "website" tags) as [ws|].
    + destruct (is_url_ok_returns ws w) as (r2 & w2 & E2 & _).
      exists w, w2, [], (if_invalid r2 "'website' URI invalid"). eexists.
      split; [rewrite E2; reflexivity|]. unfold if_invalid.
      split; [destruct (isOk r2); reflexivity|].
      split; [destruct (isOk r2); simpl; rewrite ?app_nil_r; reflexivity|].
      split; [|exists r2]; auto.
    + exists w, w, [], []. eexists. split; [reflexivity|].
      simpl. rewrite ?app_nil_r. auto.
Qed.

Ltac in_list :=
  simpl; rewrite ?in_app_iff; simpl;
  split; intros; repeat match goal with
                        | H : _ \/ _ |- _ => destruct H
                        | H : False |- _ => destruct H
                        end;
  solve [discriminate | tauto | auto].

(** C8, as the code has it: the website rule checks each of the tags
    [contact:website] and [website] that is present through [is_url_ok],
    and a verdict that is not OK appends the issue that names that tag;
    the URL examined for "facebook" and "instagram" is the value of
    [website] if that tag is present, else of [contact:website], else the
    text "undefined"; and each of the two suggestions is among the issues
    appended exactly when that URL contains its word. *)
Theorem website_rule_findings tags p w :
  exists w1 w2 added q,
    website_rule tags p w = Ok (q, w2) /\
    pc_undefined q = pc_undefined p /\
    pc_issues q = pc_issues p ++ added /\
    match Tags.lookup "contact:website" tags with
    | Some v =>
        exists r, is_url_ok v w = Ok (r, w1) /\
          (In "'contact:website' URI invalid" added <-> isOk r = false)
    | None => w1 = w /\ ~ In "'contact:website' URI invalid" added
    end /\
    match Tags.lookup "website" tags with
    | Some v =>
        exists r, is_url_ok v w1 = Ok (r, w2) /\
          (In "'website' URI invalid" added <-> isOk r = false)
    | None => w2 = w1 /\ ~ In "'website' URI invalid" added
    end /\
    (In facebook_as_website added <->
     PyStr.contains "facebook" (examined_url tags) = true) /\
    (In instagram_as_website added <->
     PyStr.contains "instagram" (examined_url tags) = true).
Proof.
  destruct (website_checks_spec tags p w)
    as (w1 & w2 & a1 & a2 & q & E & Hu & Hi & H1 & H2).
  unfold website_rule, bind, ret. rewrite E.
  set (fb := PyStr.contains "facebook" (examined_url tags)).
  set (ig := PyStr.contains "instagram" (examined_url tags)).
  set (both := Tags.mem "contact:website" tags && Tags.mem "website" tags).
  exists w1, w2,
    (a1 ++ a2 ++ (if fb then [facebook_as_website] else []) ++
     (if ig then [instagram_as_website] else []) ++
     (if both then ["'website' and 'contact:website' defined -> remove one"]
      else [])).
  eexists. split; [reflexivity|].
  assert (Ha1 : a1 = [] \/ a1 = ["'contact:website' URI invalid"]).
  { destruct (Tags.lookup "contact:website" tags).
    - destruct H1 as (r & _ & ->). unfold if_invalid. destruct (isOk r); auto.
    - tauto. }
  assert (Ha2 : a2 = [] \/ a2 = ["'website' URI invalid"]).
  { destruct (Tags.lookup "website" tags).
    - destruct H2 as (r & _ & ->). unfold if_invalid. destruct (isOk r); auto.
    - tauto. }
  split; [|split; [|split; [|split; [|split]]]].
  - destruct fb, ig, both; simpl; exact Hu.
  - destruct fb, ig, both; simpl; rewrite Hi, <- ?app_assoc; simpl;
      rewrite ?app_nil_r; reflexivity.
  - destruct (Tags.lookup "contact:website" tags).
    + destruct H1 as (r & E1 & ->). exists r. split; [exact E1|].
      unfold if_invalid, facebook_as_website, instagram_as_website.
      destruct Ha2 as [-> | ->], (isOk r), fb, ig, both; in_list.
    + destruct H1 as (-> & ->). split; [reflexivity|].
      unfold facebook_as_website, instagram_as_website.
      destruct Ha2 as [-> | ->], fb, ig, both; simpl; intuition discriminate.
  - destruct (Tags.lookup "website" tags).
    + destruct H2 as (r & E2 & ->). exists r. split; [exact E2|].
      unfold if_invalid, facebook_as_website, instagram_as_website.
      destruct Ha1 as [-> | ->], (isOk r), fb, ig, both; in_list.
    + destruct H2 as (-> & ->). split; [reflexivity|].
      unfold facebook_as_website, instagram_as_website.
      destruct Ha1 as [-> | ->], fb, ig, both; simpl; intuition discriminate.
  - unfold facebook_as_website, instagram_as_website.
    destruct Ha1 as [-> | ->], Ha2 as [-> | ->], fb, ig, both; in_list.
  - unfold facebook_as_website, instagram_as_website.
    destruct Ha1 as [-> | ->], Ha2 as [-> | ->], fb, ig, both; in_list.
Qed.


(** ** Running twice *)

Lemma prune_idempotent (m m' : gmap string entry) :
  prune m = Ok m' -> prune m' = Ok m'.
Proof.
  intros H.
  assert (Hsub : forall k e, m' !! k = Some e ->
                             m !! k = Some e /\ expired e = false).
  { intros k e Hk. rewrite (prune_lookup _ _ H k) in Hk.
    destruct (m !! k) as [e0|]; [|discriminate]. simpl in Hk.
    unfold keep in Hk. simpl in Hk.
    destruct (expired e0) eqn:Ee; [discriminate|].
    injection Hk as <-. auto. }
  assert (Hparsed : forall k, k ∈ elements (dom m') ->
            exists today e d, strptime DATE = Some today /\
                              m' !! k = Some e /\ strptime (date e) = Some d).
  { intros k Hk. apply key_list_spec in Hk as [e He].
    destruct (Hsub _ _ He) as [Hm _].
    destruct (prune_keys_parsed _ _ _ H k) as (today & e' & d & Et & E' & Ed);
      [apply key_list_spec; eauto|].
    exists today, e, d. repeat split; congruence. }
  destruct (elements (dom m')) as [|k0 ks] eqn:Ekeys.
  { unfold prune. now rewrite Ekeys. }
  destruct (Hparsed k0) as (today & _ & _ & Et & _); [apply list_elem_of_here|].
  rewrite <- Ekeys in Hparsed.
  destruct (prune_keys_returns (elements (dom m')) today Et) with (m := m')
    as [m2 H2].
  { apply NoDup_elements. }
  { intros k Hk. destruct (Hparsed k Hk) as (_ & e & d & _ & E1 & E2). eauto. }
  change (prune m' = Ok m2) in H2. rewrite H2. f_equal. apply map_eq. intros x.
  rewrite (prune_lookup _ _ H2 x).
  destruct (m' !! x) as [e|] eqn:Ex; [|reflexivity]. simpl.
  destruct (Hsub _ _ Ex) as [_ Hne]. unfold keep. now rewrite Hne.
Qed.

(** C3, at the code: since no check is stored, the file written back is
    the pruned file, and a second run on the same day, from that file, on
    the same input and with the network answering as before, is the first
    run once more, probes included: every URL that the first run probed is
    probed again. *)
Theorem rerun_repeats_every_probe url_json_file osm_data r :
  main url_json_file osm_data = Ok r ->
  main (urldata_file r) osm_data = Ok r.
Proof.
  intros Hmain. pose proof (main_urldata_file _ _ _ Hmain) as Hp.
  pose proof (prune_idempotent _ _ Hp) as Hq.
  revert Hmain. unfold main. rewrite Hp, Hq. auto.
Qed.

(** ** The rules compute the lists *)

Lemma log_nil (w : world) : log w [] = w.
Proof. only_goal. destruct w. unfold log. simpl. now rewrite app_nil_r. Qed.

Lemma log_log (w : world) (a b : list string) : log (log w a) b = log w (a ++ b).
Proof. only_goal. unfold log. simpl. now rewrite app_assoc. Qed.

Lemma append_all_nil (p : place_check) : append_all [] [] p = p.
Proof. only_goal. destruct p. unfold append_all. simpl. now rewrite !app_nil_r. Qed.

Lemma append_all_app (u1 x1 u2 x2 : list string) (p : place_check) :
  append_all u2 x2 (append_all u1 x1 p) = append_all (u1 ++ u2) (x1 ++ x2) p.
Proof. only_goal. unfold append_all. simpl. now rewrite !app_assoc. Qed.

Lemma when_issue (c : bool) (s : string) (p : place_check) :
  when c (add_issue s) p = append_all [] (opt c s) p.
Proof. only_goal.
  destruct c; simpl; [|now rewrite append_all_nil].
  unfold add_issue, append_all. now rewrite app_nil_r.
Qed.

Lemma when_undefined (c : bool) (s : string) (p : place_check) :
  when c (add_undefined s) p = append_all (opt c s) [] p.
Proof. only_goal.
  destruct c; simpl; [|now rewrite append_all_nil].
  unfold add_undefined, append_all. now rewrite app_nil_r.
Qed.

Lemma add_issue_opt (s : string) (p : place_check) :
  add_issue s p = append_all [] (opt true s) p.
Proof. only_goal. apply (when_issue true). Qed.

Lemma add_undefined_opt (s : string) (p : place_check) :
  add_undefined s p = append_all (opt true s) [] p.
Proof. only_goal. apply (when_undefined true). Qed.

Lemma append_all_ext (u x u' x' : list string) (p : place_check) :
  u = u' -> x = x' -> append_all u x p = append_all u' x' p.
Proof. only_goal. now intros -> ->. Qed.

(** Rewrite a chain of appends into one [append_all], and compare the
    lists up to the empty ones. *)
Ltac one_append :=
  rewrite ?when_issue, ?when_undefined, ?add_issue_opt, ?add_undefined_opt,
    ?append_all_app;
  try solve [ apply append_all_ext; simpl; rewrite ?app_nil_r, <- ?app_assoc;
              reflexivity
            | symmetry; apply append_all_nil ].

Lemma is_url_ok_eq (url : string) (w : world) :
  is_url_ok url w =
  Ok (url_result w url, log w (url_probes (url_data w) url)).
Proof. only_goal.
  unfold url_result, url_probes, is_url_ok, log. run_M.
  destruct (url_data w !! url) as [e|]; [now rewrite app_nil_r; destruct w|].
  destruct (is_url_format_valid url);
    [|now rewrite app_nil_r; destruct w].
  destruct (requests_get (probes w) url) as [c|code]; [reflexivity|].
  destruct (code <? 400); [reflexivity|].
  destruct (code =? 403); [reflexivity|].
  destruct (code =? 429); reflexivity.
Qed.

Lemma cuisine_rule_eq tags p :
  cuisine_rule tags p = append_all (opt (cuisine_missing tags) "cuisine") [] p.
Proof. only_goal. unfold cuisine_rule, cuisine_missing. one_append. Qed.

Lemma address_rule_eq tags p :
  address_rule tags p =
  append_all
    (opt (negb (Tags.mem "addr:street" tags)) "addr:street" ++
     opt (negb (Tags.mem "addr:housenumber" tags)) "addr:housenumber" ++
     opt (negb (Tags.mem "addr:city" tags) && negb (Tags.mem "addr:suburb" tags))
       "addr:city/suburb" ++
     opt (negb (Tags.mem "addr:postcode" tags)) "addr:postcode") [] p.
Proof. only_goal. unfold address_rule. one_append. Qed.

Lemma email_rule_eq tags p :
  email_rule tags p = append_all [] (email_issues tags) p.
Proof. only_goal.
  unfold email_rule, email_issues, email_error, chosen_email.
  destruct (Tags.lookup "contact:email" tags) as [v|];
    [|destruct (Tags.lookup "email" tags) as [v|]];
    try destruct (validate_email v); one_append.
Qed.

Lemma phone_rule_eq tags p :
  phone_rule tags p = append_all [] (phone_issues tags) p.
Proof. only_goal.
  unfold phone_rule, phone_issues, tag_is.
  destruct (Tags.lookup "contact:phone" tags), (Tags.lookup "phone" tags);
    one_append.
Qed.

Lemma opening_hours_rule_eq tags p :
  opening_hours_rule tags p =
  append_all (opt (hours_missing tags) "opening_hours") (hours_issues tags) p.
Proof. only_goal.
  unfold opening_hours_rule, hours_issues, hours_missing, hours_value, Tags.mem.
  destruct (covid19_hours tags); [one_append|].
  destruct (Tags.lookup "opening_hours" tags); one_append.
Qed.

Lemma disused_rule_eq tags p :
  disused_rule tags p = append_all [] (disused_issues tags) p.
Proof. only_goal. unfold disused_rule, disused_issues. one_append. Qed.

Lemma website_rule_eq tags p w :
  website_rule tags p w =
  Ok (append_all [] (website_issues w tags) p,
      log w (tag_probes (url_data w) (fun _ => true) "contact:website" tags ++
             tag_probes (url_data w) (fun _ => true) "website" tags)).
Proof. only_goal.
  unfold website_rule, website_checks, website_issues, examined_url,
    tag_probes, tag_is, url_invalid, Tags.mem, bind, ret.
  destruct (Tags.lookup "contact:website" tags) as [cw|];
    destruct (Tags.lookup "website" tags) as [ws|];
    rewrite ?is_url_ok_eq; simpl; rewrite ?is_url_ok_eq; simpl;
    rewrite ?log_log, ?app_nil_r, ?log_nil; f_equal; f_equal;
    one_append.
Qed.

Lemma contact_rule_eq key root t1 t2 t3 old_key old_text tags p w :
  contact_rule key root t1 t2 t3 old_key old_text tags p w =
  Ok (append_all []
        (contact_issues w key root t1 t2 t3 old_key old_text tags) p,
      log w (tag_probes (url_data w) (rooted root) key tags)).
Proof. only_goal.
  unfold contact_rule, contact_issues, tag_probes, tag_is, rooted, url_invalid,
    bind, ret.
  destruct (Tags.lookup key tags) as [v|]; simpl.
  - destruct (PyStr.startswith v "http://"); simpl.
    + rewrite log_nil. f_equal. f_equal. one_append.
    + destruct (PyStr.startswith v root); simpl.
      * rewrite is_url_ok_eq. f_equal. f_equal. one_append.
      * rewrite log_nil. f_equal. f_equal. one_append.
  - rewrite log_nil. f_equal. f_equal. one_append.
Qed.

Lemma deep_rules_eq tags p w :
  deep_rules tags p w =
  Ok (finalize (append_all (deep_undefined tags)
                  (deep_issues w tags) p),
      log w (deep_probes (url_data w) tags)).
Proof. only_goal.
  unfold deep_rules, bind, ret.
  rewrite website_rule_eq.
  unfold facebook_rule, instagram_rule.
  rewrite contact_rule_eq. simpl. rewrite contact_rule_eq. simpl.
  rewrite cuisine_rule_eq, address_rule_eq, email_rule_eq, phone_rule_eq,
    opening_hours_rule_eq, disused_rule_eq.
  f_equal. f_equal.
  - f_equal. rewrite !append_all_app.
    apply append_all_ext; unfold deep_undefined, deep_issues, facebook_issues,
      instagram_issues, after_facebook, after_website; simpl;
      rewrite ?app_nil_r, <- ?app_assoc; reflexivity.
  - rewrite !log_log. unfold deep_probes. now rewrite <- !app_assoc.
Qed.

(** ** The report of an element *)

Lemma head_rules_eq osm_element prev lat lon :
  assign_coordinates osm_element prev = Ok (Some (lat, lon)) ->
  head_rules osm_element prev =
    Ok (Some (lat, lon), head_report osm_element (lon, lat)).
Proof. only_goal. intros H. unfold head_rules, head_report. now rewrite H. Qed.

Lemma head_rules_inv osm_element prev l p :
  head_rules osm_element prev = Ok (l, p) ->
  exists lat lon,
    l = Some (lat, lon) /\
    assign_coordinates osm_element prev = Ok (Some (lat, lon)) /\
    p = head_report osm_element (lon, lat).
Proof. only_goal.
  unfold head_rules, head_report.
  destruct (assign_coordinates osm_element prev) as [[[lat lon]|]|e];
    simpl; try discriminate.
  intros [= <- <-]. now exists lat, lon.
Qed.

(** An iteration that returns has resolved the coordinates; behind the
    open gate it appends the finalized report and logs its probes, and
    before the closed gate it does nothing. *)
Lemma check_element_inv osm_element prev w l fo w' :
  check_element osm_element prev w = Ok ((l, fo), w') ->
  exists lat lon,
    l = Some (lat, lon) /\
    assign_coordinates osm_element prev = Ok (Some (lat, lon)) /\
    if gate osm_element then
      fo = Some (finalize
                   (append_all (deep_undefined (default [] (el_tags osm_element)))
                      (deep_issues w (default [] (el_tags osm_element)))
                      (head_report osm_element (lon, lat)))) /\
      w' = log w (deep_probes (url_data w) (default [] (el_tags osm_element)))
    else fo = None /\ w' = w.
Proof. only_goal.
  unfold check_element, gate, bind, lift, ret.
  destruct (head_rules osm_element prev) as [[l0 p]|e] eqn:Eh; [|discriminate].
  destruct (head_rules_inv _ _ _ _ Eh) as (lat & lon & -> & Ha & ->).
  destruct (negb _).
  - rewrite deep_rules_eq. intros [= <- <- <-]. now exists lat, lon.
  - intros [= <- <- <-]. now exists lat, lon.
Qed.

Lemma finalize_issues (q : place_check) :
  default [] (issues (finalize q)) = pc_issues q.
Proof. only_goal. unfold finalize; simpl. now destruct (pc_issues q). Qed.

Lemma finalize_undefined (q : place_check) :
  default [] (undefined (finalize q)) = pc_undefined q.
Proof. only_goal. unfold finalize; simpl. now destruct (pc_undefined q). Qed.

Lemma head_report_undefined osm_element c :
  pc_undefined (head_report osm_element c) =
  head_undefined (default [] (el_tags osm_element)).
Proof. only_goal.
  unfold head_report, head_undefined, name_missing, name_rule, resolve_name,
    diet_rule, Tags.mem.
  destruct (Tags.lookup "name" _); [|destruct (Tags.lookup "name:en" _);
    [|destruct (String.eqb _ _)]];
    destruct (Tags.lookup "diet:vegan" _) as [v|];
    try destruct (negb (usual_diet v)); reflexivity.
Qed.

Lemma head_report_issues osm_element c :
  pc_issues (head_report osm_element c) =
  head_issues (default [] (el_tags osm_element)).
Proof. only_goal.
  unfold head_report, head_issues, tag_is, name_rule, resolve_name,
    diet_rule, Tags.get.
  destruct (Tags.lookup "name" _); [|destruct (Tags.lookup "name:en" _);
    [|destruct (String.eqb _ _)]];
    destruct (Tags.lookup "diet:vegan" _) as [v|];
    try destruct (negb (usual_diet v)); reflexivity.
Qed.

Lemma head_report_diet osm_element c :
  pc_id (head_report osm_element c) = el_id osm_element /\
  pc_type (head_report osm_element c) = el_type osm_element /\
  pc_coordinates (head_report osm_element c) = c /\
  pc_diet_vegan (head_report osm_element c) =
    Tags.lookup "diet:vegan" (default [] (el_tags osm_element)).
Proof. only_goal.
  unfold head_report, name_rule, resolve_name, diet_rule.
  destruct (Tags.lookup "name" _); [|destruct (Tags.lookup "name:en" _);
    [|destruct (String.eqb _ _)]];
    destruct (Tags.lookup "diet:vegan" _) as [v|];
    try destruct (negb (usual_diet v)); auto.
Qed.

(** The fields of a report that was appended, from the tags of its
    element and the table of the state before. *)
Lemma report_fields osm_element prev w l f w' :
  check_element osm_element prev w = Ok ((l, Some f), w') ->
  gate osm_element = true /\
  _id f = el_id osm_element /\ _type f = el_type osm_element /\
  diet_vegan f = Tags.lookup "diet:vegan" (default [] (el_tags osm_element)) /\
  default [] (undefined f) =
    head_undefined (default [] (el_tags osm_element)) ++
    deep_undefined (default [] (el_tags osm_element)) /\
  default [] (issues f) =
    head_issues (default [] (el_tags osm_element)) ++
    deep_issues w (default [] (el_tags osm_element)) /\
  exists c, name f = pc_name (head_report osm_element c).
Proof. only_goal.
  intros H. destruct (check_element_inv _ _ _ _ _ _ H)
    as (lat & lon & _ & _ & Hg).
  destruct (gate osm_element); [|destruct Hg; discriminate].
  destruct Hg as [[= ->] _]. split; [reflexivity|].
  rewrite finalize_issues, finalize_undefined. simpl.
  rewrite head_report_undefined, head_report_issues.
  destruct (head_report_diet osm_element (lon, lat)) as (-> & -> & _ & ->).
  repeat split. now exists (lon, lat).
Qed.

Lemma in_opt (s t : string) (c : bool) : In s (opt c t) <-> c = true /\ s = t.
Proof. only_goal.
  destruct c; simpl; split; try tauto.
  - intros [<-|[]]. auto.
  - intros [_ ->]. auto.
  - intros [[=] _].
Qed.

Lemma tag_is_true (P : string -> bool) (k : string) (tags : Tags.t) :
  tag_is P k tags = true <-> exists v, Tags.lookup k tags = Some v /\ P v = true.
Proof. only_goal.
  unfold tag_is. destruct (Tags.lookup k tags) as [v|].
  - split; [eauto|]. now intros (v' & [= <-] & H).
  - split; [discriminate|]. now intros (v' & [=] & _).
Qed.

Lemma mem_true (k : string) (tags : Tags.t) :
  Tags.mem k tags = true <-> exists v, Tags.lookup k tags = Some v.
Proof. only_goal.
  unfold Tags.mem. destruct (Tags.lookup k tags) as [v|].
  - split; eauto.
  - split; [discriminate|]. now intros [v [=]].
Qed.

Lemma mem_false (k : string) (tags : Tags.t) :
  Tags.mem k tags = false <-> Tags.lookup k tags = None.
Proof. only_goal.
  unfold Tags.mem. destruct (Tags.lookup k tags); split; congruence.
Qed.

(** ** Missing fields *)

Lemma hours_missing_true (tags : Tags.t) :
  hours_missing tags = true <->
  Tags.lookup "opening_hours" tags = None /\
  (Tags.lookup "opening_hours:covid19" tags = None \/
   Tags.lookup "opening_hours:covid19" tags = Some "same" \/
   Tags.lookup "opening_hours:covid19" tags = Some "restricted").
Proof. only_goal.
  unfold hours_missing, covid19_hours.
  destruct (Tags.lookup "opening_hours:covid19" tags) as [v|].
  - destruct (String.eqb_spec v "same") as [->|Hs]; simpl.
    + rewrite negb_true_iff, mem_false. tauto.
    + destruct (String.eqb_spec v "restricted") as [->|Hr]; simpl.
      * rewrite negb_true_iff, mem_false. tauto.
      * split; [discriminate|]. intros [_ [H|[H|H]]]; congruence.
  - rewrite negb_true_iff, mem_false. tauto.
Qed.

Lemma in_report_undefined (s : string) (tags : Tags.t) :
  In s (head_undefined tags ++ deep_undefined tags) <->
  (name_missing tags = true /\ s = "name") \/
  (negb (Tags.mem "diet:vegan" tags) = true /\ s = "diet:vegan") \/
  (cuisine_missing tags = true /\ s = "cuisine") \/
  (negb (Tags.mem "addr:street" tags) = true /\ s = "addr:street") \/
  (negb (Tags.mem "addr:housenumber" tags) = true /\ s = "addr:housenumber") \/
  (negb (Tags.mem "addr:city" tags) && negb (Tags.mem "addr:suburb" tags) = true
   /\ s = "addr:city/suburb") \/
  (negb (Tags.mem "addr:postcode" tags) = true /\ s = "addr:postcode") \/
  (hours_missing tags = true /\ s = "opening_hours").
Proof. only_goal.
  unfold head_undefined, deep_undefined. rewrite !in_app_iff, !in_opt. tauto.
Qed.

(** Decide the membership of a fixed text in a list of findings: all
    cases but the one of the text are closed by comparing texts. *)
Ltac one_case H :=
  simpl in H; decompose [or and] H; clear H; try discriminate; try tauto.

Lemma name_missing_true (tags : Tags.t) :
  name_missing tags = true <->
  Tags.lookup "name" tags = None /\ Tags.lookup "name:en" tags = None /\
  Tags.get "amenity" tags <> "vending_machine".
Proof. only_goal.
  unfold name_missing.
  rewrite !andb_true_iff, !negb_true_iff, !mem_false, String.eqb_neq. tauto.
Qed.

Lemma cuisine_missing_true (tags : Tags.t) :
  cuisine_missing tags = true <->
  Tags.lookup "cuisine" tags = None /\ Tags.lookup "shop" tags = None /\
  Tags.get "amenity" tags <> "cafe" /\
  Tags.get "amenity" tags <> "ice_cream" /\
  Tags.get "amenity" tags <> "bar".
Proof. only_goal.
  unfold cuisine_missing.
  rewrite !andb_true_iff, !negb_true_iff, !mem_false, !String.eqb_neq. tauto.
Qed.

(** X8, missing fields: a report lists a field as undefined exactly when
    the tags lack it: [diet:vegan] and the address parts each by their own
    key, the city by [addr:city] and [addr:suburb] together, the cuisine by
    [cuisine] and [shop] unless the amenity is a cafe, an ice cream parlour
    or a bar, and the opening hours by [opening_hours] when the covid19
    hours are absent or defer with "same" or "restricted". *)
Theorem missing_fields_exactly osm_element prev w l f w' tags :
  check_element osm_element prev w = Ok ((l, Some f), w') ->
  tags = default [] (el_tags osm_element) ->
  (In "diet:vegan" (default [] (undefined f)) <->
   Tags.lookup "diet:vegan" tags = None) /\
  (In "cuisine" (default [] (undefined f)) <->
   Tags.lookup "cuisine" tags = None /\ Tags.lookup "shop" tags = None /\
   Tags.get "amenity" tags <> "cafe" /\
   Tags.get "amenity" tags <> "ice_cream" /\
   Tags.get "amenity" tags <> "bar") /\
  (In "addr:street" (default [] (undefined f)) <->
   Tags.lookup "addr:street" tags = None) /\
  (In "addr:housenumber" (default [] (undefined f)) <->
   Tags.lookup "addr:housenumber" tags = None) /\
  (In "addr:city/suburb" (default [] (undefined f)) <->
   Tags.lookup "addr:city" tags = None /\
   Tags.lookup "addr:suburb" tags = None) /\
  (In "addr:postcode" (default [] (undefined f)) <->
   Tags.lookup "addr:postcode" tags = None) /\
  (In "opening_hours" (default [] (undefined f)) <->
   Tags.lookup "opening_hours" tags = None /\
   (Tags.lookup "opening_hours:covid19" tags = None \/
    Tags.lookup "opening_hours:covid19" tags = Some "same" \/
    Tags.lookup "opening_hours:covid19" tags = Some "restricted")).
Proof. only_goal.
  intros H ->. destruct (report_fields _ _ _ _ _ _ H) as (_ & _ & _ & _ & -> & _).
  rewrite !in_report_undefined.
  rewrite <- hours_missing_true, <- cuisine_missing_true.
  rewrite <- !mem_false, <- !negb_true_iff.
  rewrite !andb_true_iff.
  repeat match goal with |- _ /\ _ => split end;
    (split; intros H0; [one_case H0 | intuition auto]).
Qed.

Lemma opt_sublist (c : bool) (s : string) : opt c s `sublist_of` [s].
Proof. only_goal. destruct c; [reflexivity | apply sublist_nil_l]. Qed.

(** X9, order of the missing fields: the undefined list of a report is
    a selection from the fields in the order of the checks, each at most
    once. *)
Theorem missing_fields_in_check_order osm_element prev w l f w' :
  check_element osm_element prev w = Ok ((l, Some f), w') ->
  default [] (undefined f) `sublist_of`
    ["name"; "diet:vegan"; "cuisine"; "addr:street"; "addr:housenumber";
     "addr:city/suburb"; "addr:postcode"; "opening_hours"] /\
  NoDup (default [] (undefined f)) /\
  (length (default [] (undefined f)) <= 8)%nat.
Proof. only_goal.
  intros H. destruct (report_fields _ _ _ _ _ _ H) as (_ & _ & _ & _ & -> & _).
  assert (Hs : (head_undefined (default [] (el_tags osm_element)) ++
                deep_undefined (default [] (el_tags osm_element)))
               `sublist_of`
               ((["name"] ++ ["diet:vegan"]) ++ ["cuisine"] ++ ["addr:street"] ++
                ["addr:housenumber"] ++ ["addr:city/suburb"] ++
                ["addr:postcode"] ++ ["opening_hours"])).
  { unfold head_undefined, deep_undefined.
    repeat apply sublist_app; apply opt_sublist. }
  simpl in Hs. split; [exact Hs|]. split.
  - eapply sublist_NoDup; [|exact Hs].
    repeat (constructor; [rewrite ?elem_of_cons, elem_of_nil;
                          intuition discriminate|]).
    constructor.
  - apply sublist_length in Hs. exact Hs.
Qed.

(** X7, identity of a report: a report carries the id and the type of its
    element and the value of its [diet:vegan] tag, if any, and that value
    is never "no". *)
Theorem report_identifies_element osm_element prev w l f w' tags :
  check_element osm_element prev w = Ok ((l, Some f), w') ->
  tags = default [] (el_tags osm_element) ->
  _id f = el_id osm_element /\ _type f = el_type osm_element /\
  diet_vegan f = Tags.lookup "diet:vegan" tags /\
  diet_vegan f <> Some "no".
Proof. only_goal.
  intros H ->.
  destruct (report_fields _ _ _ _ _ _ H) as (Hg & -> & -> & -> & _).
  repeat split. unfold gate, Tags.get in Hg.
  destruct (Tags.lookup "diet:vegan" _) as [v|]; [|discriminate].
  intros [= ->]. discriminate Hg.
Qed.

(** ** Issues *)

Lemma in_option_list (o : option string) (g : string -> string) (s : string) :
  In s (match o with Some e => [g e] | None => [] end) <->
  exists e, o = Some e /\ s = g e.
Proof. only_goal.
  destruct o as [e|]; simpl.
  - split.
    + intros [<-|[]]. eauto.
    + intros (e' & [= <-] & ->). auto.
  - split; [tauto|]. now intros (e' & [=] & _).
Qed.

Lemma tag_is_negb (Q : string -> bool) (k : string) (tags : Tags.t) :
  tag_is (fun v => negb (Q v)) k tags = true <->
  exists v, Tags.lookup k tags = Some v /\ Q v = false.
Proof. only_goal.
  rewrite tag_is_true. split; intros (v & Hv & HQ); exists v;
    (split; [exact Hv|]); now apply negb_true_iff.
Qed.

Lemma in_app_cases (s : string) (a b : list string) (A B : Prop) :
  (In s a <-> A) -> (In s b <-> B) -> (In s (a ++ b) <-> A \/ B).
Proof. only_goal. intros Ha Hb. rewrite in_app_iff. tauto. Qed.

(** The membership in a list of findings as the disjunction of its
    possible texts, each with its condition. *)
Ltac flat_issues :=
  eapply iff_trans;
  [ unfold head_issues, deep_issues, website_issues, facebook_issues,
      instagram_issues, contact_issues, email_issues, phone_issues,
      hours_issues, disused_issues, head_undefined, deep_undefined;
    repeat first [ apply in_app_cases | apply in_opt
                 | apply (in_option_list _
                            (fun e => "E-Mail is not valid: " +:+ e)) ]
  | ].

(** Close the goal with the case of the disjunction that holds. *)
Ltac pick_case :=
  first [ split; [assumption | reflexivity]
        | eexists; split; [eassumption | reflexivity]
        | left; pick_case
        | right; pick_case ].

Ltac other_cases H :=
  simpl in H; decompose [or and ex] H; clear H; try discriminate.

(** X11, duplicate fields: a report warns of a field defined twice exactly
    when both keys are among the tags, for the website, the e-mail address
    and the phone number, whatever the values are and whatever the checks
    of the values found. *)
Theorem duplicate_field_warnings osm_element prev w l f w' tags :
  check_element osm_element prev w = Ok ((l, Some f), w') ->
  tags = default [] (el_tags osm_element) ->
  (In "'website' and 'contact:website' defined -> remove one"
      (default [] (issues f)) <->
   Tags.mem "contact:website" tags = true /\ Tags.mem "website" tags = true) /\
  (In "'email' and 'contact:email' defined -> remove one"
      (default [] (issues f)) <->
   Tags.mem "contact:email" tags = true /\ Tags.mem "email" tags = true) /\
  (In "'phone' and 'contact:phone' defined -> remove one"
      (default [] (issues f)) <->
   Tags.mem "contact:phone" tags = true /\ Tags.mem "phone" tags = true).
Proof. only_goal.
  intros H ->.
  destruct (report_fields _ _ _ _ _ _ H) as (_ & _ & _ & _ & _ & -> & _).
  rewrite <- !andb_true_iff.
  unfold facebook_as_website, instagram_as_website.
  repeat match goal with |- _ /\ _ => split end;
    (flat_issues; split; intros H0; [other_cases H0; assumption | pick_case]).
Qed.

(** X12, phone numbers: each of [contact:phone] and [phone] that is
    present is tested on its own, and a report has the issue of a key
    exactly when the value of that key does not start with "+". *)
Theorem phone_format_issues osm_element prev w l f w' tags :
  check_element osm_element prev w = Ok ((l, Some f), w') ->
  tags = default [] (el_tags osm_element) ->
  (In "'contact:phone' has no international format like '+44 20 84527891'"
      (default [] (issues f)) <->
   exists v, Tags.lookup "contact:phone" tags = Some v /\
             PyStr.startswith v "+" = false) /\
  (In "'phone' has no international format like '+44 20 84527891'"
      (default [] (issues f)) <->
   exists v, Tags.lookup "phone" tags = Some v /\
             PyStr.startswith v "+" = false).
Proof. only_goal.
  intros H ->.
  destruct (report_fields _ _ _ _ _ _ H) as (_ & _ & _ & _ & _ & -> & _).
  rewrite <- !(tag_is_negb (fun v => PyStr.startswith v "+")).
  unfold facebook_as_website, instagram_as_website.
  repeat match goal with |- _ /\ _ => split end;
    (flat_issues; split; intros H0; [other_cases H0; assumption | pick_case]).
Qed.

(** X13, old tags: a report has the issue of the old [facebook] tag,
    and of the old [instagram] tag, exactly when that key is among the
    tags. *)
Theorem old_tag_issues osm_element prev w l f w' tags :
  check_element osm_element prev w = Ok ((l, Some f), w') ->
  tags = default [] (el_tags osm_element) ->
  (In "old tag: 'facebook' -> change to 'contact:facebook'"
      (default [] (issues f)) <-> Tags.mem "facebook" tags = true) /\
  (In "old tag 'instagram'" (default [] (issues f)) <->
   Tags.mem "instagram" tags = true).
Proof. only_goal.
  intros H ->.
  destruct (report_fields _ _ _ _ _ _ H) as (_ & _ & _ & _ & _ & -> & _).
  unfold facebook_as_website, instagram_as_website.
  repeat match goal with |- _ /\ _ => split end;
    (flat_issues; split; intros H0; [other_cases H0; assumption | pick_case]).
Qed.

(** *** Contact pages *)

Lemma prefix_app (p s t : string) :
  String.prefix p s = true -> String.prefix p (s +:+ t) = true.
Proof. only_goal.
  revert s. induction p as [|a p IH]; intros s H.
  - now destruct (s +:+ t).
  - destruct s as [|b s]; [discriminate|]. simpl in *.
    destruct (ascii_dec a b); [now apply IH|discriminate].
Qed.

Lemma prefix_split (p s : string) :
  String.prefix p s = true -> exists t, s = p +:+ t.
Proof. only_goal.
  revert s. induction p as [|a p IH]; intros s H.
  - now exists s.
  - destruct s as [|b s]; [discriminate|]. simpl in H.
    destruct (ascii_dec a b) as [->|]; [|discriminate].
    destruct (IH s H) as [t ->]. now exists t.
Qed.

(** A value that starts with "https" does not start with "http://". *)
Lemma https_is_not_http (v rest : string) :
  PyStr.startswith v ("https" +:+ rest) = true ->
  PyStr.startswith v "http://" = false.
Proof. only_goal.
  unfold PyStr.startswith. intros H.
  destruct (String.prefix "http://" v) eqn:E; [|reflexivity].
  apply prefix_split in H as [t ->]. apply prefix_split in E as [t' E].
  discriminate E.
Qed.

Lemma url_invalid_true (w : world) (v : string) :
  url_invalid w v = true <->
  exists r w1, is_url_ok v w = Ok (r, w1) /\ isOk r = false.
Proof. only_goal.
  unfold url_invalid. rewrite negb_true_iff. split.
  - intros H. eexists _, _. split; [apply is_url_ok_eq|exact H].
  - intros (r & w1 & E & H). rewrite is_url_ok_eq in E.
    injection E as <- _. exact H.
Qed.

Lemma contact_unrooted_true (key root : string) (tags : Tags.t) :
  tag_is (fun v => negb (PyStr.startswith v "http://") &&
                   negb (PyStr.startswith v root)) key tags = true <->
  exists v, Tags.lookup key tags = Some v /\
            PyStr.startswith v "http://" = false /\
            PyStr.startswith v root = false.
Proof. only_goal.
  rewrite tag_is_true. split; intros (v & Hv & H); exists v;
    (split; [exact Hv|]).
  - now rewrite andb_true_iff, !negb_true_iff in H.
  - now rewrite andb_true_iff, !negb_true_iff.
Qed.

Lemma contact_invalid_true (key rest : string) (tags : Tags.t) (w : world) :
  tag_is (fun v => rooted ("https" +:+ rest) v && url_invalid w v)
    key tags = true <->
  exists v r w1, Tags.lookup key tags = Some v /\
                 PyStr.startswith v ("https" +:+ rest) = true /\
                 is_url_ok v w = Ok (r, w1) /\ isOk r = false.
Proof. only_goal.
  rewrite tag_is_true. unfold rooted. split.
  - intros (v & Hv & H). rewrite !andb_true_iff in H.
    destruct H as [[_ Hr] Hi]. apply url_invalid_true in Hi as (r & w1 & E & Hi).
    now exists v, r, w1.
  - intros (v & r & w1 & Hv & Hr & E & Hi). exists v. split; [exact Hv|].
    rewrite !andb_true_iff, negb_true_iff. repeat split.
    + eapply https_is_not_http, Hr.
    + exact Hr.
    + apply url_invalid_true. eauto.
Qed.

(** X14, facebook page: of a [contact:facebook] value, a report says that
    it starts with http where it does, else that it does not start with
    the address of facebook where it does not, and calls it invalid only
    when it starts with that address and its URL check fails, the check
    being the one made in the state that the website rule left, after
    the probes of that rule; so at most one of the three, and no URL
    check of a value that fails the first two tests. *)
Theorem facebook_contact_issues osm_element prev w l f w' tags :
  check_element osm_element prev w = Ok ((l, Some f), w') ->
  tags = default [] (el_tags osm_element) ->
  (In "'contact:facebook' starts with 'http' instead of 'https'"
      (default [] (issues f)) <->
   exists v, Tags.lookup "contact:facebook" tags = Some v /\
             PyStr.startswith v "http://" = true) /\
  (In "'contact:facebook' does not starts with 'https://www.facebook.com/'"
      (default [] (issues f)) <->
   exists v, Tags.lookup "contact:facebook" tags = Some v /\
             PyStr.startswith v "http://" = false /\
             PyStr.startswith v "https://www.facebook.com/" = false) /\
  exists w1,
    (forall p, exists q, website_rule tags p w = Ok (q, w1)) /\
    (In "'contact:facebook' URI invalid" (default [] (issues f)) <->
     exists v r w2, Tags.lookup "contact:facebook" tags = Some v /\
                    PyStr.startswith v "https://www.facebook.com/" = true /\
                    is_url_ok v w1 = Ok (r, w2) /\ isOk r = false).
Proof. only_goal.
  intros H ->.
  destruct (report_fields _ _ _ _ _ _ H) as (_ & _ & _ & _ & _ & -> & _).
  unfold facebook_as_website, instagram_as_website.
  split; [|split;
    [|exists (after_website w (default [] (el_tags osm_element)));
      split; [intros p; eexists; apply website_rule_eq|]]];
    flat_issues; split; intros H0.
  - other_cases H0. now apply tag_is_true.
  - apply tag_is_true in H0. pick_case.
  - other_cases H0. now apply contact_unrooted_true.
  - apply contact_unrooted_true in H0. pick_case.
  - other_cases H0. now apply (contact_invalid_true _ "://www.facebook.com/").
  - apply (contact_invalid_true _ "://www.facebook.com/") in H0. pick_case.
Qed.

(** X15, instagram page: the same for [contact:instagram] and the address
    of instagram; its URL check is the one made in the state that the
    facebook rule left, after the probes of the website rule and of the
    facebook rule. *)
Theorem instagram_contact_issues osm_element prev w l f w' tags :
  check_element osm_element prev w = Ok ((l, Some f), w') ->
  tags = default [] (el_tags osm_element) ->
  (In "'contact:instagram' starts with 'http' instead of 'https'"
      (default [] (issues f)) <->
   exists v, Tags.lookup "contact:instagram" tags = Some v /\
             PyStr.startswith v "http://" = true) /\
  (In "'contact:instagram' does not starts with 'https://www.instagram.com/'"
      (default [] (issues f)) <->
   exists v, Tags.lookup "contact:instagram" tags = Some v /\
             PyStr.startswith v "http://" = false /\
             PyStr.startswith v "https://www.instagram.com/" = false) /\
  exists w1 w2,
    (forall p, exists q, website_rule tags p w = Ok (q, w1)) /\
    (forall p, exists q, facebook_rule tags p w1 = Ok (q, w2)) /\
    (In "'contact:instagram' URI invalid" (default [] (issues f)) <->
     exists v r w3, Tags.lookup "contact:instagram" tags = Some v /\
                    PyStr.startswith v "https://www.instagram.com/" = true /\
                    is_url_ok v w2 = Ok (r, w3) /\ isOk r = false).
Proof. only_goal.
  intros H ->.
  destruct (report_fields _ _ _ _ _ _ H) as (_ & _ & _ & _ & _ & -> & _).
  unfold facebook_as_website, instagram_as_website.
  split; [|split;
    [|exists (after_website w (default [] (el_tags osm_element))),
        (after_facebook w (default [] (el_tags osm_element)));
      split; [intros p; eexists; apply website_rule_eq|];
      split; [intros p; eexists; unfold facebook_rule;
              rewrite contact_rule_eq; reflexivity|]]];
    flat_issues; split; intros H0.
  - other_cases H0. now apply tag_is_true.
  - apply tag_is_true in H0. pick_case.
  - other_cases H0. now apply contact_unrooted_true.
  - apply contact_unrooted_true in H0. pick_case.
  - other_cases H0. now apply (contact_invalid_true _ "://www.instagram.com/").
  - apply (contact_invalid_true _ "://www.instagram.com/") in H0. pick_case.
Qed.

(** *** E-mail, opening hours, disused keys, diet *)

Lemma append_inj (p a b : string) : p +:+ a = p +:+ b -> a = b.
Proof. only_goal.
  induction p as [|c p IH]; intros H; [exact H|].
  change (String c (p +:+ a) = String c (p +:+ b)) in H.
  injection H as H. now apply IH.
Qed.

Lemma email_error_some (tags : Tags.t) (e : string) :
  email_error tags = Some e <->
  exists email,
    (Tags.lookup "contact:email" tags = Some email \/
     (Tags.lookup "contact:email" tags = None /\
      Tags.lookup "email" tags = Some email)) /\
    validate_email email = Some e.
Proof. only_goal.
  unfold email_error, chosen_email.
  destruct (Tags.lookup "contact:email" tags) as [c|].
  - split; [eauto|]. intros (email & Hc & Hv).
    destruct Hc as [Hc|[Hc _]]; congruence.
  - destruct (Tags.lookup "email" tags) as [b|].
    + split; [eauto|]. intros (email & Hc & Hv).
      destruct Hc as [Hc|[_ Hc]]; congruence.
    + split; [discriminate|]. intros (email & Hc & _).
      destruct Hc as [Hc|[_ Hc]]; discriminate.
Qed.

(** X16, e-mail: a report has the issue of an invalid e-mail address, with
    the text of the validator, exactly when the validator rejects the
    address that is chosen: the one of [contact:email] if that key is
    present, else the one of [email]. The [email] beside a
    [contact:email] is never validated. *)
Theorem email_issue_of_chosen_address osm_element prev w l f w' tags e :
  check_element osm_element prev w = Ok ((l, Some f), w') ->
  tags = default [] (el_tags osm_element) ->
  (In ("E-Mail is not valid: " +:+ e) (default [] (issues f)) <->
   exists email,
     (Tags.lookup "contact:email" tags = Some email \/
      (Tags.lookup "contact:email" tags = None /\
       Tags.lookup "email" tags = Some email)) /\
     validate_email email = Some e).
Proof. only_goal.
  intros H ->.
  destruct (report_fields _ _ _ _ _ _ H) as (_ & _ & _ & _ & _ & -> & _).
  unfold facebook_as_website, instagram_as_website.
  flat_issues; split; intros H0.
  - other_cases H0. apply email_error_some.
    match goal with
    | He : email_error _ = Some ?x, Hs : _ = _ |- _ =>
        apply append_inj in Hs as ->; exact He
    end.
  - apply email_error_some in H0. pick_case.
Qed.

(** X17, opening hours: the hours that a report examines are those of
    [opening_hours:covid19] unless they are absent, "same" or
    "restricted", else those of [opening_hours], else the text
    "undefined"; the report has the line break issue exactly when
    these hours contain a line feed or a carriage return. *)
Theorem opening_hours_resolution osm_element prev w l f w' tags :
  check_element osm_element prev w = Ok ((l, Some f), w') ->
  tags = default [] (el_tags osm_element) ->
  exists hours,
    (forall v, Tags.lookup "opening_hours:covid19" tags = Some v ->
               v <> "same" -> v <> "restricted" -> hours = v) /\
    (Tags.lookup "opening_hours:covid19" tags = None \/
     Tags.lookup "opening_hours:covid19" tags = Some "same" \/
     Tags.lookup "opening_hours:covid19" tags = Some "restricted" ->
     (forall v, Tags.lookup "opening_hours" tags = Some v -> hours = v) /\
     (Tags.lookup "opening_hours" tags = None -> hours = "undefined")) /\
    (In "There is a line break in 'opening_hours' -> remove"
        (default [] (issues f)) <->
     PyStr.contains PyStr.lf hours = true \/
     PyStr.contains PyStr.cr hours = true).
Proof. only_goal.
  intros H ->.
  destruct (report_fields _ _ _ _ _ _ H) as (_ & _ & _ & _ & _ & -> & _).
  exists (hours_value (default [] (el_tags osm_element))).
  split; [|split].
  - unfold hours_value, covid19_hours. intros v -> Hs Hr.
    apply String.eqb_neq in Hs, Hr. now rewrite Hs, Hr.
  - unfold hours_value, covid19_hours. intros [->|[->| ->]]; simpl;
      (split; [now intros v -> | now intros ->]).
  - rewrite <- orb_true_iff.
    unfold facebook_as_website, instagram_as_website.
    flat_issues; split; intros H0; [other_cases H0; assumption | pick_case].
Qed.

Lemma contains_cons (sub : string) (a : ascii) (s : string) :
  PyStr.contains sub (String a s) =
  String.prefix sub (String a s) || PyStr.contains sub s.
Proof. only_goal. reflexivity. Qed.

Lemma contains_app_l (sub s t : string) :
  PyStr.contains sub s = true -> PyStr.contains sub (s +:+ t) = true.
Proof. only_goal.
  induction s as [|a s IH]; intros H.
  - destruct sub; [now destruct t|discriminate].
  - change (String a s +:+ t) with (String a (s +:+ t)).
    rewrite contains_cons in *. apply orb_true_iff in H as [H|H].
    + apply (prefix_app _ _ t) in H.
      change (String a s +:+ t) with (String a (s +:+ t)) in H.
      now rewrite H.
    + rewrite (IH H). apply orb_true_r.
Qed.

Lemma contains_app_r (sub s t : string) :
  PyStr.contains sub t = true -> PyStr.contains sub (s +:+ t) = true.
Proof. only_goal.
  intros H. induction s as [|a s IH]; [exact H|].
  change (String a s +:+ t) with (String a (s +:+ t)).
  rewrite contains_cons, IH. apply orb_true_r.
Qed.

Lemma contains_join (sub k : string) (keys : list string) :
  In k keys -> PyStr.contains sub k = true ->
  PyStr.contains sub (PyStr.join keys) = true.
Proof. only_goal.
  unfold PyStr.join. intros Hin Hk.
  induction keys as [|x xs IH]; [destruct Hin|].
  simpl. destruct xs as [|y ys].
  - destruct Hin as [->|[]]. exact Hk.
  - destruct Hin as [->|Hin].
    + now apply contains_app_l.
    + apply contains_app_r. simpl. apply IH, Hin.
Qed.

(** X18, disused: a report has the disused issue exactly when the keys of
    the tags, joined in their order, contain "disused"; so a key that
    contains "disused" always brings the issue. *)
Theorem disused_key_is_flagged osm_element prev w l f w' tags :
  check_element osm_element prev w = Ok ((l, Some f), w') ->
  tags = default [] (el_tags osm_element) ->
  (In "There is a 'disused' tag: Check whether this tag is correct. If so, please remove the diet tags."
      (default [] (issues f)) <->
   PyStr.contains "disused" (PyStr.join (Tags.keys tags)) = true) /\
  (forall k, In k (Tags.keys tags) -> PyStr.contains "disused" k = true ->
     In "There is a 'disused' tag: Check whether this tag is correct. If so, please remove the diet tags."
       (default [] (issues f))).
Proof. only_goal.
  intros H ->.
  destruct (report_fields _ _ _ _ _ _ H) as (_ & _ & _ & _ & _ & -> & _).
  assert (Hiff :
    In "There is a 'disused' tag: Check whether this tag is correct. If so, please remove the diet tags."
      (head_issues (default [] (el_tags osm_element)) ++
       deep_issues w (default [] (el_tags osm_element))) <->
    PyStr.contains "disused"
      (PyStr.join (Tags.keys (default [] (el_tags osm_element)))) = true).
  { unfold facebook_as_website, instagram_as_website.
    flat_issues; split; intros H0; [other_cases H0; assumption | pick_case]. }
  split; [exact Hiff|].
  intros k Hin Hk. apply Hiff. eapply contains_join; eauto.
Qed.

(** X10, diet value: a report has the issue of an unusual [diet:vegan]
    value [v] exactly when the tag has the value [v] and [v] is none of
    "only", "yes" and "limited"; the value "no" needs no mention, since
    an element with it has no report. *)
Theorem unusual_diet_value_issue osm_element prev w l f w' tags v :
  check_element osm_element prev w = Ok ((l, Some f), w') ->
  tags = default [] (el_tags osm_element) ->
  (In ("'diet:vegan' has an unusual value: " +:+ v) (default [] (issues f)) <->
   Tags.lookup "diet:vegan" tags = Some v /\
   v <> "only" /\ v <> "yes" /\ v <> "limited").
Proof. only_goal.
  intros H ->.
  destruct (report_fields _ _ _ _ _ _ H) as (Hg & _ & _ & _ & _ & -> & _).
  unfold gate, Tags.get in Hg.
  unfold facebook_as_website, instagram_as_website.
  flat_issues; split; intros H0.
  - other_cases H0.
    match goal with
    | Ht : tag_is _ _ _ = true, Hs : _ = _ |- _ =>
        apply tag_is_true in Ht as (v0 & Hv0 & Hu);
        unfold Tags.get in Hs; rewrite Hv0 in Hs;
        apply append_inj in Hs as ->
    end.
    split; [assumption|].
    unfold usual_diet in Hu. rewrite negb_true_iff, !orb_false_iff in Hu.
    destruct Hu as [[[H1 H2] H3] _].
    now rewrite !String.eqb_neq in *.
  - destruct H0 as (Hv & H1 & H2 & H3). left. split.
    + apply tag_is_true. exists v. split; [exact Hv|].
      rewrite Hv in Hg. unfold usual_diet.
      apply String.eqb_neq in H1, H2, H3.
      rewrite H1, H2, H3. simpl. exact Hg.
    + unfold Tags.get. now rewrite Hv.
Qed.

(** X5, name: the name of a report is the [name] tag if present, else
    the [name:en] tag if present, else "vending machine" for that amenity,
    else the type and the id of the element, with every double quote
    replaced by a right double quotation mark; and a report lists the name
    as undefined exactly in the last case. *)
Theorem name_resolution_order osm_element prev w l f w' tags :
  check_element osm_element prev w = Ok ((l, Some f), w') ->
  tags = default [] (el_tags osm_element) ->
  exists n,
    name f = PyStr.replace PyStr.dquote "”" n /\
    (forall v, Tags.lookup "name" tags = Some v -> n = v) /\
    (Tags.lookup "name" tags = None ->
     forall v, Tags.lookup "name:en" tags = Some v -> n = v) /\
    (Tags.lookup "name" tags = None -> Tags.lookup "name:en" tags = None ->
     (Tags.get "amenity" tags = "vending_machine" -> n = "vending machine") /\
     (Tags.get "amenity" tags <> "vending_machine" ->
      n = el_type osm_element +:+ " " +:+ pretty (el_id osm_element))) /\
    (In "name" (default [] (undefined f)) <->
     Tags.lookup "name" tags = None /\ Tags.lookup "name:en" tags = None /\
     Tags.get "amenity" tags <> "vending_machine").
Proof. only_goal.
  intros H ->.
  destruct (report_fields _ _ _ _ _ _ H) as (_ & _ & _ & _ & -> & _ & c & ->).
  set (tags := default [] (el_tags osm_element)).
  exists (fst (resolve_name (el_type osm_element) (el_id osm_element) tags
                 {| pc_id := el_id osm_element; pc_type := el_type osm_element;
                    pc_undefined := []; pc_issues := [];
                    pc_coordinates := c; pc_name := "";
                    pc_diet_vegan := None |})).
  split; [|split; [|split; [|split]]].
  - unfold head_report, name_rule, diet_rule. fold tags.
    destruct (resolve_name _ _ _ _) as [n p]. simpl.
    destruct (Tags.lookup "diet:vegan" tags) as [d|]; [|reflexivity].
    destruct (negb (usual_diet d)); reflexivity.
  - unfold resolve_name. now intros v ->.
  - unfold resolve_name. now intros -> v ->.
  - unfold resolve_name. intros -> ->. split.
    + now intros ->.
    + intros Hne. apply String.eqb_neq in Hne. now rewrite Hne.
  - rewrite <- name_missing_true.
    flat_issues; split; intros H0; [other_cases H0; assumption | pick_case].
Qed.

(** ** More on the URL check *)

(** X1, cache hit: for a URL that is in [url_data] the check returns the
    stored verdict and text under the date of today, whatever the format
    of the URL and the network are, and the state is as before: no probe
    is made and the stored entry keeps its date. *)
Theorem cached_verdict_is_returned (url : string) (w : world) (e : entry) :
  url_data w !! url = Some e ->
  is_url_ok url w =
    Ok ({| date := DATE; isOk := isOk e; text := text e |}, w).
Proof. only_goal.
  intros H. unfold is_url_ok. run_M. now rewrite H.
Qed.

(** X2, verdict: the check returns for every URL in every state, its
    result is dated today, and its verdict is true exactly when the URL
    is cached with a true verdict, or is not cached, has a valid format
    and gets a response with a status below 400 or one of 403 and 429. *)
Theorem verdict_is_ok_exactly (url : string) (w : world) :
  exists r w',
    is_url_ok url w = Ok (r, w') /\ date r = DATE /\
    (isOk r = true <->
     (exists e, url_data w !! url = Some e /\ isOk e = true) \/
     (url_data w !! url = None /\ is_url_format_valid url = true /\
      exists status_code,
        requests_get (probes w) url = Response status_code /\
        (status_code < 400 \/ status_code = 403 \/ status_code = 429))).
Proof. only_goal.
  unfold is_url_ok. run_M.
  destruct (url_data w !! url) as [e|].
  { eexists _, _. split; [reflexivity|]. split; [reflexivity|]. simpl.
    split.
    - intros H. left. now exists e.
    - intros [(e' & [= <-] & H)|([=] & _)]. exact H. }
  destruct (is_url_format_valid url).
  2:{ eexists _, _. split; [reflexivity|]. split; [reflexivity|]. simpl.
      split; [discriminate|].
      intros [(e' & [=] & _)|(_ & [=] & _)]. }
  destruct (requests_get (probes w) url) as [c|code].
  { eexists _, _. split; [reflexivity|]. split; [reflexivity|]. simpl.
    split; [discriminate|].
    intros [(e' & [=] & _)|(_ & _ & code & [=] & _)]. }
  destruct (Z.ltb_spec code 400) as [Hlt|Hge].
  { eexists _, _. split; [reflexivity|]. split; [reflexivity|]. simpl.
    split; [|reflexivity]. intros _. right. repeat split. exists code. auto. }
  destruct (Z.eqb_spec code 403) as [->|H403].
  { eexists _, _. split; [reflexivity|]. split; [reflexivity|]. simpl.
    split; [|reflexivity]. intros _. right. repeat split. exists 403. auto. }
  destruct (Z.eqb_spec code 429) as [->|H429].
  { eexists _, _. split; [reflexivity|]. split; [reflexivity|]. simpl.
    split; [|reflexivity]. intros _. right. repeat split. exists 429. auto. }
  eexists _, _. split; [reflexivity|]. split; [reflexivity|]. simpl.
  split; [discriminate|].
  intros [(e' & [=] & _)|(_ & _ & code' & [= <-] & Hc)]. lia.
Qed.

(** X3, one probe at most: the check hands the URL to [requests.get]
    once when the URL is not cached and has a valid format, and not at
    all otherwise; it never changes [url_data]. *)
Theorem probe_exactly_on_valid_miss (url : string) (w : world) :
  exists r w',
    is_url_ok url w = Ok (r, w') /\ url_data w' = url_data w /\
    probes w' =
      probes w ++
      (if bool_decide (url_data w !! url = None) && is_url_format_valid url
       then [url] else []).
Proof. only_goal.
  unfold is_url_ok. run_M.
  destruct (url_data w !! url) as [e|]; simpl.
  { eexists _, _. split; [reflexivity|]. now rewrite app_nil_r. }
  destruct (is_url_format_valid url); simpl.
  2:{ eexists _, _. split; [reflexivity|]. now rewrite app_nil_r. }
  destruct (requests_get (probes w) url) as [c|code]; [eauto|].
  destruct (code <? 400); [eauto|].
  destruct (code =? 403); [eauto|].
  destruct (code =? 429); eauto.
Qed.

(** X4, transport failure: when [requests.get] raises on a URL that is
    not cached and has a valid format, the check does not raise: it
    returns the verdict false with the class of the exception in the
    text, the probe being logged. *)
Theorem transport_failure_is_a_verdict (url : string) (w : world)
  (class_name : string) :
  url_data w !! url = None ->
  is_url_format_valid url = true ->
  requests_get (probes w) url = Raised class_name ->
  is_url_ok url w =
    Ok ({| date := DATE; isOk := false;
           text := "Exception: " +:+ class_name |},
        {| url_data := url_data w; probes := probes w ++ [url] |}).
Proof. only_goal.
  intros Hmiss Hvalid Hraise. unfold is_url_ok. run_M.
  now rewrite Hmiss, Hvalid, Hraise.
Qed.

(** ** The name *)

Lemma prefix_empty (s : string) : String.prefix EmptyString s = true.
Proof. only_goal. now destruct s. Qed.

Lemma contains_char_app (c : ascii) (a b : string) :
  PyStr.contains (String c EmptyString) (a +:+ b) =
  PyStr.contains (String c EmptyString) a ||
  PyStr.contains (String c EmptyString) b.
Proof. only_goal.
  induction a as [|x a IH]; [reflexivity|].
  change (String x a +:+ b) with (String x (a +:+ b)).
  rewrite !contains_cons, IH. simpl.
  destruct (ascii_dec c x); [now rewrite !prefix_empty|reflexivity].
Qed.

Lemma replace_removes (c : ascii) (by_ s : string) :
  PyStr.contains (String c EmptyString) by_ = false ->
  PyStr.contains (String c EmptyString) (PyStr.replace c by_ s) = false.
Proof. only_goal.
  intros Hby. induction s as [|a s IH]; [reflexivity|]. simpl PyStr.replace.
  destruct (Ascii.eqb_spec a c) as [->|Hne].
  - now rewrite contains_char_app, Hby, IH.
  - rewrite contains_cons, IH. simpl.
    destruct (ascii_dec c a); [congruence|reflexivity].
Qed.

(** X6, double quotes: the name of a report contains no double quote,
    whatever the tags. *)
Theorem report_name_has_no_double_quote osm_element prev w l f w' :
  check_element osm_element prev w = Ok ((l, Some f), w') ->
  PyStr.contains (String PyStr.dquote EmptyString) (name f) = false.
Proof. only_goal.
  intros H.
  destruct (report_fields _ _ _ _ _ _ H) as (_ & _ & _ & _ & _ & _ & c & ->).
  unfold head_report, name_rule, diet_rule.
  destruct (resolve_name _ _ _ _) as [n p].
  assert (Hn : PyStr.contains (String PyStr.dquote EmptyString)
                 (PyStr.replace PyStr.dquote "”" n) = false)
    by (apply replace_removes; reflexivity).
  destruct (Tags.lookup "diet:vegan" _) as [d|]; [|exact Hn].
  destruct (negb (usual_diet d)); exact Hn.
Qed.

(** ** The loop and the run *)

Lemma check_element_eq osm_element prev w lat lon :
  assign_coordinates osm_element prev = Ok (Some (lat, lon)) ->
  check_element osm_element prev w =
  if gate osm_element then
    Ok ((Some (lat, lon),
         Some (finalize
                 (append_all (deep_undefined (default [] (el_tags osm_element)))
                    (deep_issues w (default [] (el_tags osm_element)))
                    (head_report osm_element (lon, lat))))),
        log w (deep_probes (url_data w) (default [] (el_tags osm_element))))
  else Ok ((Some (lat, lon), None), w).
Proof. only_goal.
  intros H. unfold check_element, gate, bind, lift, ret.
  rewrite (head_rules_eq _ _ _ _ H).
  destruct (negb _); [now rewrite deep_rules_eq|reflexivity].
Qed.

Lemma resolvable_assigns osm_element prev :
  resolvable osm_element ->
  exists lat lon, assign_coordinates osm_element prev = Ok (Some (lat, lon)).
Proof. only_goal.
  unfold resolvable, assign_coordinates.
  intros [->|[[->| ->] Hc]]; simpl; eauto;
    destruct (el_center osm_element); [eauto|congruence|eauto|congruence].
Qed.

Lemma check_loop_ids elements :
  forall l acc w fs w',
    check_loop elements l acc w = Ok (fs, w') ->
    map (fun f => (_id f, _type f)) fs =
    map (fun f => (_id f, _type f)) acc ++
    map (fun el => (el_id el, el_type el)) (List.filter gate elements).
Proof. only_goal.
  induction elements as [|el rest IH]; simpl; intros l acc w fs w' H.
  - unfold ret in H. injection H as <- <-. now rewrite app_nil_r.
  - unfold bind in H.
    destruct (check_element el l w) as [[[l' fo] w1]|e] eqn:E; [|discriminate].
    apply IH in H. rewrite H. clear H IH.
    destruct (check_element_inv _ _ _ _ _ _ E) as (lat & lon & _ & _ & Hg).
    destruct (gate el).
    + destruct Hg as [-> _]. rewrite map_app, <- app_assoc. simpl.
      now destruct (head_report_diet el (lon, lat)) as (-> & -> & _).
    + now destruct Hg as [-> _].
Qed.

(** X19, order of the reports: the reports of a run that completes are
    those of the elements whose [diet:vegan] is not "no", one for each, in
    the order of the input, each with the id and the type of its element. *)
Theorem features_follow_input_order elements w result w' :
  check_data elements w = Ok (result, w') ->
  map (fun f => (_id f, _type f)) (features result) =
  map (fun el => (el_id el, el_type el))
    (List.filter
       (fun el => negb (String.eqb
                          (Tags.get "diet:vegan" (default [] (el_tags el)))
                          "no"))
       elements).
Proof. only_goal.
  unfold check_data, bind, ret. intros H.
  destruct (check_loop elements None [] w) as [[fs w1]|e] eqn:E; [|discriminate].
  injection H as <- <-. simpl. apply check_loop_ids in E. exact E.
Qed.

Lemma check_loop_returns elements :
  Forall resolvable elements ->
  forall l acc w, exists fs w',
    check_loop elements l acc w = Ok (fs, w') /\ url_data w' = url_data w.
Proof. only_goal.
  induction 1 as [|el rest Hel _ IH]; simpl; intros l acc w.
  - unfold ret. eauto.
  - destruct (resolvable_assigns el l Hel) as (lat & lon & Ha).
    unfold bind. rewrite (check_element_eq _ _ w _ _ Ha).
    destruct (gate el).
    + destruct (IH (Some (lat, lon))
                  (acc ++ [finalize
                     (append_all (deep_undefined (default [] (el_tags el)))
                        (deep_issues w (default [] (el_tags el)))
                        (head_report el (lon, lat)))])
                  (log w (deep_probes (url_data w) (default [] (el_tags el)))))
        as (fs & w' & E & U).
      exists fs, w'. split; [exact E|]. exact U.
    + apply IH.
Qed.

(** X20, no crash on resolvable input: when every element is a node, or a
    way or relation with a [center], the run over the elements returns,
    whatever their tags and whatever the network does, and [url_data] is
    as before. *)
Theorem check_data_returns_on_resolvable_input elements w :
  Forall resolvable elements ->
  exists result w',
    check_data elements w = Ok (result, w') /\ url_data w' = url_data w.
Proof. only_goal.
  intros H. unfold check_data, bind, ret.
  destruct (check_loop_returns elements H None [] w) as (fs & w' & -> & U).
  eauto.
Qed.

Lemma in_url_probes (ud : gmap string entry) (u v : string) :
  In u (url_probes ud v) ->
  u = v /\ ud !! v = None /\ is_url_format_valid v = true.
Proof. only_goal.
  unfold url_probes.
  destruct (ud !! v) as [e|]; [intros []|].
  destruct (is_url_format_valid v); [|intros []].
  intros [<-|[]]; auto.
Qed.

Lemma in_tag_probes (ud : gmap string entry) (P : string -> bool)
  (k : string) (tags : Tags.t) (u : string) :
  In u (tag_probes ud P k tags) ->
  Tags.lookup k tags = Some u /\ P u = true /\
  ud !! u = None /\ is_url_format_valid u = true.
Proof. only_goal.
  unfold tag_probes. destruct (Tags.lookup k tags) as [v|]; [|intros []].
  destruct (P v) eqn:EP; [|intros []].
  intros H. apply in_url_probes in H as (-> & H1 & H2). auto.
Qed.

Lemma in_deep_probes (ud : gmap string entry) (tags : Tags.t) (u : string) :
  In u (deep_probes ud tags) ->
  ud !! u = None /\ is_url_format_valid u = true /\
  (Tags.lookup "contact:website" tags = Some u \/
   Tags.lookup "website" tags = Some u \/
   (Tags.lookup "contact:facebook" tags = Some u /\
    PyStr.startswith u "https://www.facebook.com/" = true) \/
   (Tags.lookup "contact:instagram" tags = Some u /\
    PyStr.startswith u "https://www.instagram.com/" = true)).
Proof. only_goal.
  unfold deep_probes. rewrite !in_app_iff.
  intros [H|[H|[H|H]]]; apply in_tag_probes in H as (Hl & HP & Hm & Hv);
    (split; [exact Hm|]); (split; [exact Hv|]); auto;
    unfold rooted in HP; apply andb_true_iff in HP as [_ HP]; auto.
Qed.

Lemma check_loop_probes elements :
  forall l acc w fs w',
    check_loop elements l acc w = Ok (fs, w') ->
    exists new,
      w' = log w new /\
      forall u, In u new ->
        exists el, In el elements /\ gate el = true /\
                   In u (deep_probes (url_data w) (default [] (el_tags el))).
Proof. only_goal.
  induction elements as [|el rest IH]; simpl; intros l acc w fs w' H.
  - unfold ret in H. injection H as <- <-. exists []. split.
    + symmetry. apply log_nil.
    + intros u [].
  - unfold bind in H.
    destruct (check_element el l w) as [[[l' fo] w1]|e] eqn:E; [|discriminate].
    apply IH in H as (new & -> & Hnew). clear IH.
    destruct (check_element_inv _ _ _ _ _ _ E) as (lat & lon & _ & _ & Hg).
    destruct (gate el) eqn:G.
    + destruct Hg as [_ ->]. rewrite log_log. eexists. split; [reflexivity|].
      intros u Hu. apply in_app_iff in Hu as [Hu|Hu].
      * exists el. auto.
      * destruct (Hnew u Hu) as (el' & Hin & G' & Hd). exists el'. auto.
    + destruct Hg as [_ ->]. exists new. split; [reflexivity|].
      intros u Hu. destruct (Hnew u Hu) as (el' & Hin & G' & Hd).
      exists el'. auto.
Qed.

(** X21, what a run probes: every URL that a run hands to
    [requests.get] is the value of [contact:website] or [website], or a
    value of [contact:facebook] or [contact:instagram] that starts with the
    address of its site, of an element whose [diet:vegan] is not "no"; it
    has a valid format and is not in [url_data]. *)
Theorem run_probes_only_tag_urls elements w result w' :
  check_data elements w = Ok (result, w') ->
  exists new,
    probes w' = probes w ++ new /\
    forall u, In u new ->
      url_data w !! u = None /\ is_url_format_valid u = true /\
      exists el tags,
        In el elements /\ tags = default [] (el_tags el) /\
        Tags.get "diet:vegan" tags <> "no" /\
        (Tags.lookup "contact:website" tags = Some u \/
         Tags.lookup "website" tags = Some u \/
         (Tags.lookup "contact:facebook" tags = Some u /\
          PyStr.startswith u "https://www.facebook.com/" = true) \/
         (Tags.lookup "contact:instagram" tags = Some u /\
          PyStr.startswith u "https://www.instagram.com/" = true)).
Proof. only_goal.
  unfold check_data, bind, ret. intros H.
  destruct (check_loop elements None [] w) as [[fs w1]|e] eqn:E; [|discriminate].
  injection H as <- <-.
  apply check_loop_probes in E as (new & -> & Hnew).
  exists new. split; [reflexivity|]. intros u Hu.
  destruct (Hnew u Hu) as (el & Hin & G & Hd).
  apply in_deep_probes in Hd as (Hm & Hv & Hk).
  split; [exact Hm|]. split; [exact Hv|].
  exists el, (default [] (el_tags el)). repeat split; try assumption.
  unfold gate in G. apply negb_true_iff, String.eqb_neq in G. exact G.
Qed.

(** X22, cached URLs: a run of [main] that completes has probed no URL
    that is in the file it writes back, that is, no URL with an entry of
    28 days or less. *)
Theorem cached_urls_are_not_probed url_json_file elements r :
  main url_json_file (Some elements) = Ok r ->
  forall u, In u (run_probes r) -> urldata_file r !! u = None.
Proof. only_goal.
  unfold main. destruct (prune url_json_file) as [pruned|e]; [|discriminate].
  unfold check_data, bind, ret.
  destruct (check_loop elements None [] _) as [[fs w1]|e] eqn:E; [|discriminate].
  intros [= <-]. simpl.
  apply check_loop_probes in E as (new & -> & Hnew). simpl.
  intros u Hu. destruct (Hnew u Hu) as (el & _ & _ & Hd).
  now apply in_deep_probes in Hd as (Hm & _).
Qed.

(** X23, independence: for an element of a recognized type, an iteration
    does not read what the iterations before left in [lat] and [lon]: from
    the same state it returns the same coordinates, the same report and
    the same state, or raises the same exception, whatever those locals
    are, bound or not. *)
Theorem iteration_ignores_earlier_coordinates osm_element prev1 prev2 w :
  el_type osm_element = "node" \/ el_type osm_element = "way" \/
  el_type osm_element = "relation" ->
  check_element osm_element prev1 w = check_element osm_element prev2 w.
Proof. only_goal.
  intros Ht. unfold check_element, head_rules.
  replace (assign_coordinates osm_element prev1)
    with (assign_coordinates osm_element prev2); [reflexivity|].
  unfold assign_coordinates. destruct Ht as [->|[->| ->]]; reflexivity.
Qed.

Lemma prune_keys_raises key_list :
  NoDup key_list ->
  forall (m : gmap string entry),
    (forall k, k ∈ key_list -> is_Some (m !! k)) ->
    (exists k e, k ∈ key_list /\ m !! k = Some e /\
                 strptime (date e) = None) ->
    prune_keys key_list m = Raise ValueError.
Proof. only_goal.
  induction key_list as [|k0 rest IH]; intros Hnd m Hall (k & e & Hin & Hk & He).
  - inversion Hin.
  - simpl. destruct (strptime DATE) as [today|]; [|reflexivity].
    destruct (Hall k0) as [e0 He0]; [apply list_elem_of_here|]. rewrite He0.
    destruct (strptime (date e0)) as [d|] eqn:Ed; [|reflexivity].
    apply NoDup_cons in Hnd as [Hk0 Hnd].
    assert (Hne : k <> k0) by (intros ->; congruence).
    apply elem_of_cons in Hin as [Hin|Hin]; [contradiction|].
    apply IH; [exact Hnd| |].
    + intros k' Hk'. destruct (28 <? today - d); [|apply Hall; now right].
      rewrite lookup_delete_ne; [apply Hall; now right|].
      intros ->. contradiction.
    + exists k, e. split; [exact Hin|]. split; [|exact He].
      destruct (28 <? today - d); [|exact Hk].
      rewrite lookup_delete_ne; [exact Hk|]. congruence.
Qed.

(** X24, unparsable date: an entry of the cache file whose date does not
    parse makes [main] raise [ValueError] while it prunes: no element is
    checked and no file is written, whatever the other entries and the
    input are. *)
Theorem unparsable_cache_date_aborts_run url_json_file osm_data url e :
  url_json_file !! url = Some e ->
  strptime (date e) = None ->
  main url_json_file osm_data = Raise ValueError.
Proof. only_goal.
  intros Hu He. unfold main, prune.
  rewrite prune_keys_raises; [reflexivity|apply NoDup_elements| |].
  - intros k Hk. now apply key_list_spec.
  - exists url, e. split; [apply key_list_spec; eauto|]. auto.
Qed.

(** ** Coordinates, in the loop *)




End Datacheck.


(** ** The properties on the examples *)

(** The program with the libraries of [Sample]. *)
Local Abbreviation sample_is_url_ok net :=
  (is_url_ok Sample.DATE Sample.urlparse net).
Local Abbreviation sample_check_element net :=
  (check_element Sample.DATE Sample.urlparse net Sample.validate_email).
Local Abbreviation sample_check_data net :=
  (check_data Sample.TIMESTAMP Sample.DATE Sample.urlparse net
     Sample.validate_email).
Local Abbreviation sample_main net :=
  (main Sample.TIMESTAMP Sample.DATE Sample.urlparse net
     Sample.validate_email Sample.strptime).

(** *** The URL check *)

Lemma miss_is_not_stored_witness :
  url_data Sample.empty_world !! "https://a.example" = None /\
  exists r w',
    sample_is_url_ok Sample.online "https://a.example" Sample.empty_world
      = Ok (r, w') /\
    url_data w' !! "https://a.example" = None.
Proof.
  split; [reflexivity|].
  apply (miss_is_not_stored Sample.DATE Sample.urlparse Sample.online
           "https://a.example" Sample.empty_world).
  reflexivity.
Defined.

(** The same check by evaluation: the verdict is computed, the URL is
    probed, and [url_data] is as empty as before. *)
Example fresh_check_leaves_url_data_empty :
  sample_is_url_ok Sample.online "https://a.example" Sample.empty_world =
  Ok ({| date := Sample.DATE; isOk := true; text := "OK" |},
      {| url_data := ∅; probes := ["https://a.example"] |}).
Proof. reflexivity. Qed.

Lemma status_code_verdict_witness :
  url_data Sample.empty_world !! "https://a.example" = None /\
  is_url_format_valid Sample.urlparse "https://a.example" = true /\
  Sample.not_found (probes Sample.empty_world) "https://a.example"
    = Response 404 /\
  exists r w',
    sample_is_url_ok Sample.not_found "https://a.example" Sample.empty_world
      = Ok (r, w') /\
    (404 < 400 -> isOk r = true /\ text r = "OK") /\
    (404 = 403 ->
     isOk r = true /\
     text r = "Can't do full check: HTTP response: Forbidden") /\
    (404 = 429 ->
     isOk r = true /\
     text r = "Can't do full check: HTTP response: Too Many Requests") /\
    (400 <= 404 -> 404 <> 403 -> 404 <> 429 ->
     isOk r = false /\ text r = "HTTP response code " +:+ pretty 404) /\
    (404 = 404 -> isOk r = false /\ text r = "HTTP response code 404").
Proof.
  split; [reflexivity|]. split; [reflexivity|]. split; [reflexivity|].
  apply (status_code_verdict Sample.DATE Sample.urlparse Sample.not_found
           "https://a.example" Sample.empty_world 404); reflexivity.
Defined.

Lemma malformed_url_is_not_probed_witness :
  url_data Sample.empty_world !! "not a url" = None /\
  is_url_format_valid Sample.urlparse "not a url" = false /\
  sample_is_url_ok Sample.online "not a url" Sample.empty_world =
    Ok ({| date := Sample.DATE; isOk := false; text := "No valid URL format" |},
        Sample.empty_world).
Proof.
  split; [reflexivity|]. split; [reflexivity|].
  apply (malformed_url_is_not_probed Sample.DATE Sample.urlparse Sample.online
           "not a url" Sample.empty_world); reflexivity.
Defined.

(** *** Reports *)

Lemma issue_number_counts_serialized_witness :
  let result := {| _timestamp := Sample.TIMESTAMP;
                   features := [Sample.green_bowl_report] |} in
  let f := Sample.green_bowl_report in
  sample_check_data Sample.online [Sample.green_bowl] Sample.empty_world
    = Ok (result, Sample.empty_world) /\
  In f (features result) /\
  issue_number f =
    (length (default [] (issues f)) + length (default [] (undefined f)))%nat /\
  issues f <> Some [] /\ undefined f <> Some [] /\
  (issue_number f = 0%nat <-> issues f = None /\ undefined f = None).
Proof.
  intros result f.
  split; [reflexivity|]. split; [left; reflexivity|].
  apply (issue_number_counts_serialized Sample.TIMESTAMP Sample.DATE
           Sample.urlparse Sample.online Sample.validate_email
           [Sample.green_bowl] Sample.empty_world result Sample.empty_world f);
    [reflexivity | left; reflexivity].
Defined.

(** C1 fails as stated: [steak_house] has the diet "no", its coordinates
    resolve, and the run over it alone ends with no report at all, where
    the claim has one with the name, the geometry and the diet. *)
Lemma diet_no_has_no_report :
  Tags.get "diet:vegan" (default [] (el_tags Sample.steak_house)) = "no" /\
  sample_check_data Sample.online [Sample.steak_house] Sample.empty_world =
    Ok ({| _timestamp := Sample.TIMESTAMP; features := [] |},
        Sample.empty_world) /\
  ~ (exists result w' f,
       sample_check_data Sample.online [Sample.steak_house] Sample.empty_world
         = Ok (result, w') /\
       In f (features result) /\ _id f = el_id Sample.steak_house).
Proof.
  split; [reflexivity|]. split; [reflexivity|].
  intros (result & w' & f & H & Hin & _).
  vm_compute in H. injection H as <- <-. destruct Hin.
Qed.

Lemma diet_no_appends_no_report_witness :
  Tags.get "diet:vegan" (default [] (el_tags Sample.steak_house)) = "no" /\
  assign_coordinates Sample.steak_house None =
    Ok (Some (Some (1 # 1)%Q, Some (2 # 1)%Q)) /\
  sample_check_element Sample.online Sample.steak_house None Sample.empty_world
    = Ok ((Some (Some (1 # 1)%Q, Some (2 # 1)%Q), None), Sample.empty_world) /\
  forall rest acc,
    check_loop Sample.DATE Sample.urlparse Sample.online Sample.validate_email
      (Sample.steak_house :: rest) None acc Sample.empty_world =
    check_loop Sample.DATE Sample.urlparse Sample.online Sample.validate_email
      rest (Some (Some (1 # 1)%Q, Some (2 # 1)%Q)) acc Sample.empty_world.
Proof.
  split; [reflexivity|]. split; [reflexivity|].
  apply (diet_no_appends_no_report Sample.DATE Sample.urlparse Sample.online
           Sample.validate_email Sample.steak_house None
           (Some (1 # 1)%Q) (Some (2 # 1)%Q) Sample.empty_world);
    reflexivity.
Defined.

(** *** Coordinates *)




(** An element of an unknown type after a node is reported at the place
    of the node. *)
Example area_after_node_takes_its_coordinates :
  exists f1 f2 w',
    sample_check_data Sample.online [Sample.green_bowl; Sample.area]
      Sample.empty_world =
      Ok ({| _timestamp := Sample.TIMESTAMP; features := [f1; f2] |}, w') /\
    _id f1 = 42 /\ _id f2 = 10 /\ coordinates f2 = coordinates f1.
Proof. do 3 eexists. split; [reflexivity|]. repeat split. Qed.

(** *** Pruning *)

Lemma expired_entries_are_pruned_witness :
  sample_main Sample.online Sample.urldata None = Ok Sample.pruned_run /\
  (forall url e, Sample.urldata !! url = Some e ->
     exists today d,
       Sample.strptime Sample.DATE = Some today /\
       Sample.strptime (date e) = Some d /\
       (28 < today - d ->
        urldata_file Sample.pruned_run !! url = None /\
        sample_main Sample.online (delete url Sample.urldata) None
          = Ok Sample.pruned_run) /\
       (today - d <= 28 -> urldata_file Sample.pruned_run !! url = Some e)) /\
  (forall url, Sample.urldata !! url = None ->
               urldata_file Sample.pruned_run !! url = None).
Proof.
  split; [vm_compute; reflexivity|].
  apply (expired_entries_are_pruned Sample.TIMESTAMP Sample.DATE
           Sample.urlparse Sample.online Sample.validate_email Sample.strptime
           Sample.urldata None Sample.pruned_run).
  vm_compute. reflexivity.
Defined.

(** The two entries of [urldata]: 29 days are too many, 28 are not. *)
Example twenty_nine_days_pruned_twenty_eight_kept :
  Sample.strptime Sample.DATE = Some 738946 /\
  Sample.strptime (date Sample.old_entry) = Some (738946 - 29) /\
  Sample.strptime (date Sample.recent_entry) = Some (738946 - 28) /\
  urldata_file Sample.pruned_run !! "https://old.example" = None /\
  urldata_file Sample.pruned_run !! "https://recent.example"
    = Some Sample.recent_entry.
Proof. repeat split; vm_compute; reflexivity. Qed.

(** *** The website rule *)

(** C8 fails as stated: of [two_websites] the URL resolved as the claim
    has it is the one of [contact:website], which contains "facebook", and
    the report has no suggestion to migrate it: the rule examined the URL
    of [website]. *)
Lemma facebook_in_contact_website_is_not_suggested :
  spec_resolved_url Sample.two_websites
    = Some "https://www.facebook.com/greenbowl" /\
  PyStr.contains "facebook" "https://www.facebook.com/greenbowl" = true /\
  (exists w',
     sample_check_data Sample.online [Sample.two_websites_node]
       Sample.empty_world =
       Ok ({| _timestamp := Sample.TIMESTAMP;
              features := [Sample.two_websites_report] |}, w')) /\
  ~ In facebook_as_website (default [] (issues Sample.two_websites_report)).
Proof.
  split; [reflexivity|]. split; [reflexivity|].
  split; [eexists; reflexivity|].
  simpl. intros [H|[]]. discriminate H.
Qed.

(** *** Running twice *)

Lemma rerun_repeats_every_probe_witness :
  sample_main Sample.online ∅ (Some [Sample.with_website])
    = Ok Sample.first_run /\
  sample_main Sample.online (urldata_file Sample.first_run)
    (Some [Sample.with_website]) = Ok Sample.first_run.
Proof.
  split; [vm_compute; reflexivity|].
  apply (rerun_repeats_every_probe Sample.TIMESTAMP Sample.DATE Sample.urlparse
           Sample.online Sample.validate_email Sample.strptime
           ∅ (Some [Sample.with_website]) Sample.first_run).
  vm_compute. reflexivity.
Defined.

(** The second run asks the network again, so when the site has gone in
    between, its report differs from the first, one day's cache or not. *)
Example second_run_sees_the_network_change :
  run_probes Sample.first_run = ["https://a.example"] /\
  sample_main Sample.not_found (urldata_file Sample.first_run)
    (Some [Sample.with_website]) =
    Ok {| check_results_file :=
            Some {| _timestamp := Sample.TIMESTAMP;
                    features :=
                      [Sample.with_website_report
                         (Some ["'website' URI invalid"]) 7] |};
          urldata_file := ∅;
          run_probes := ["https://a.example"] |}.
Proof. split; [reflexivity|vm_compute; reflexivity]. Qed.

(** *** Reports, on a place with many findings *)

Lemma missing_fields_exactly_witness :
  sample_check_element Sample.not_found Sample.busy None Sample.empty_world =
    Ok ((Some (Some (1 # 1)%Q, Some (2 # 1)%Q), Some Sample.busy_report),
        Sample.busy_world) /\
  Sample.busy_tags = default [] (el_tags Sample.busy) /\
  ((In "diet:vegan" (default [] (undefined Sample.busy_report)) <->
   Tags.lookup "diet:vegan" Sample.busy_tags = None) /\
  (In "cuisine" (default [] (undefined Sample.busy_report)) <->
   Tags.lookup "cuisine" Sample.busy_tags = None /\ Tags.lookup "shop" Sample.busy_tags = None /\
   Tags.get "amenity" Sample.busy_tags <> "cafe" /\
   Tags.get "amenity" Sample.busy_tags <> "ice_cream" /\
   Tags.get "amenity" Sample.busy_tags <> "bar") /\
  (In "addr:street" (default [] (undefined Sample.busy_report)) <->
   Tags.lookup "addr:street" Sample.busy_tags = None) /\
  (In "addr:housenumber" (default [] (undefined Sample.busy_report)) <->
   Tags.lookup "addr:housenumber" Sample.busy_tags = None) /\
  (In "addr:city/suburb" (default [] (undefined Sample.busy_report)) <->
   Tags.lookup "addr:city" Sample.busy_tags = None /\
   Tags.lookup "addr:suburb" Sample.busy_tags = None) /\
  (In "addr:postcode" (default [] (undefined Sample.busy_report)) <->
   Tags.lookup "addr:postcode" Sample.busy_tags = None) /\
  (In "opening_hours" (default [] (undefined Sample.busy_report)) <->
   Tags.lookup "opening_hours" Sample.busy_tags = None /\
   (Tags.lookup "opening_hours:covid19" Sample.busy_tags = None \/
    Tags.lookup "opening_hours:covid19" Sample.busy_tags = Some "same" \/
    Tags.lookup "opening_hours:covid19" Sample.busy_tags = Some "restricted"))).
Proof.
  assert (H : sample_check_element Sample.not_found Sample.busy None Sample.empty_world =
      Ok ((Some (Some (1 # 1)%Q, Some (2 # 1)%Q), Some Sample.busy_report),
          Sample.busy_world))
    by reflexivity.
  split; [exact H|]. split; [reflexivity|].
  exact (missing_fields_exactly _ _ _ _ _ _ _ _ _ _ _ H eq_refl).
Defined.

Lemma report_identifies_element_witness :
  sample_check_element Sample.not_found Sample.busy None Sample.empty_world =
    Ok ((Some (Some (1 # 1)%Q, Some (2 # 1)%Q), Some Sample.busy_report),
        Sample.busy_world) /\
  Sample.busy_tags = default [] (el_tags Sample.busy) /\
  (_id Sample.busy_report = el_id Sample.busy /\ _type Sample.busy_report = el_type Sample.busy /\
  diet_vegan Sample.busy_report = Tags.lookup "diet:vegan" Sample.busy_tags /\
  diet_vegan Sample.busy_report <> Some "no").
Proof.
  assert (H : sample_check_element Sample.not_found Sample.busy None Sample.empty_world =
      Ok ((Some (Some (1 # 1)%Q, Some (2 # 1)%Q), Some Sample.busy_report),
          Sample.busy_world))
    by reflexivity.
  split; [exact H|]. split; [reflexivity|].
  exact (report_identifies_element _ _ _ _ _ _ _ _ _ _ _ H eq_refl).
Defined.

Lemma duplicate_field_warnings_witness :
  sample_check_element Sample.not_found Sample.busy None Sample.empty_world =
    Ok ((Some (Some (1 # 1)%Q, Some (2 # 1)%Q), Some Sample.busy_report),
        Sample.busy_world) /\
  Sample.busy_tags = default [] (el_tags Sample.busy) /\
  ((In "'website' and 'contact:website' defined -> remove one"
      (default [] (issues Sample.busy_report)) <->
   Tags.mem "contact:website" Sample.busy_tags = true /\ Tags.mem "website" Sample.busy_tags = true) /\
  (In "'email' and 'contact:email' defined -> remove one"
      (default [] (issues Sample.busy_report)) <->
   Tags.mem "contact:email" Sample.busy_tags = true /\ Tags.mem "email" Sample.busy_tags = true) /\
  (In "'phone' and 'contact:phone' defined -> remove one"
      (default [] (issues Sample.busy_report)) <->
   Tags.mem "contact:phone" Sample.busy_tags = true /\ Tags.mem "phone" Sample.busy_tags = true)).
Proof.
  assert (H : sample_check_element Sample.not_found Sample.busy None Sample.empty_world =
      Ok ((Some (Some (1 # 1)%Q, Some (2 # 1)%Q), Some Sample.busy_report),
          Sample.busy_world))
    by reflexivity.
  split; [exact H|]. split; [reflexivity|].
  exact (duplicate_field_warnings _ _ _ _ _ _ _ _ _ _ _ H eq_refl).
Defined.

Lemma phone_format_issues_witness :
  sample_check_element Sample.not_found Sample.busy None Sample.empty_world =
    Ok ((Some (Some (1 # 1)%Q, Some (2 # 1)%Q), Some Sample.busy_report),
        Sample.busy_world) /\
  Sample.busy_tags = default [] (el_tags Sample.busy) /\
  ((In "'contact:phone' has no international format like '+44 20 84527891'"
      (default [] (issues Sample.busy_report)) <->
   exists v, Tags.lookup "contact:phone" Sample.busy_tags = Some v /\
             PyStr.startswith v "+" = false) /\
  (In "'phone' has no international format like '+44 20 84527891'"
      (default [] (issues Sample.busy_report)) <->
   exists v, Tags.lookup "phone" Sample.busy_tags = Some v /\
             PyStr.startswith v "+" = false)).
Proof.
  assert (H : sample_check_element Sample.not_found Sample.busy None Sample.empty_world =
      Ok ((Some (Some (1 # 1)%Q, Some (2 # 1)%Q), Some Sample.busy_report),
          Sample.busy_world))
    by reflexivity.
  split; [exact H|]. split; [reflexivity|].
  exact (phone_format_issues _ _ _ _ _ _ _ _ _ _ _ H eq_refl).
Defined.

Lemma old_tag_issues_witness :
  sample_check_element Sample.not_found Sample.busy None Sample.empty_world =
    Ok ((Some (Some (1 # 1)%Q, Some (2 # 1)%Q), Some Sample.busy_report),
        Sample.busy_world) /\
  Sample.busy_tags = default [] (el_tags Sample.busy) /\
  ((In "old tag: 'facebook' -> change to 'contact:facebook'"
      (default [] (issues Sample.busy_report)) <-> Tags.mem "facebook" Sample.busy_tags = true) /\
  (In "old tag 'instagram'" (default [] (issues Sample.busy_report)) <->
   Tags.mem "instagram" Sample.busy_tags = true)).
Proof.
  assert (H : sample_check_element Sample.not_found Sample.busy None Sample.empty_world =
      Ok ((Some (Some (1 # 1)%Q, Some (2 # 1)%Q), Some Sample.busy_report),
          Sample.busy_world))
    by reflexivity.
  split; [exact H|]. split; [reflexivity|].
  exact (old_tag_issues _ _ _ _ _ _ _ _ _ _ _ H eq_refl).
Defined.

Lemma facebook_contact_issues_witness :
  sample_check_element Sample.rate_limiting Sample.twice None Sample.empty_world =
    Ok ((Some (Some (1 # 1)%Q, Some (2 # 1)%Q), Some Sample.twice_report),
        Sample.twice_world) /\
  Sample.twice_tags = default [] (el_tags Sample.twice) /\
  ((In "'contact:facebook' starts with 'http' instead of 'https'"
      (default [] (issues Sample.twice_report)) <->
   exists v, Tags.lookup "contact:facebook" Sample.twice_tags = Some v /\
             PyStr.startswith v "http://" = true) /\
  (In "'contact:facebook' does not starts with 'https://www.facebook.com/'"
      (default [] (issues Sample.twice_report)) <->
   exists v, Tags.lookup "contact:facebook" Sample.twice_tags = Some v /\
             PyStr.startswith v "http://" = false /\
             PyStr.startswith v "https://www.facebook.com/" = false) /\
  exists w1,
    (forall p, exists q, website_rule Sample.DATE Sample.urlparse Sample.rate_limiting Sample.twice_tags p Sample.empty_world = Ok (q, w1)) /\
    (In "'contact:facebook' URI invalid" (default [] (issues Sample.twice_report)) <->
     exists v r w2, Tags.lookup "contact:facebook" Sample.twice_tags = Some v /\
                    PyStr.startswith v "https://www.facebook.com/" = true /\
                    sample_is_url_ok Sample.rate_limiting v w1 = Ok (r, w2) /\ isOk r = false)).
Proof.
  assert (H : sample_check_element Sample.rate_limiting Sample.twice None
                Sample.empty_world =
      Ok ((Some (Some (1 # 1)%Q, Some (2 # 1)%Q), Some Sample.twice_report),
          Sample.twice_world))
    by reflexivity.
  split; [exact H|]. split; [reflexivity|].
  exact (facebook_contact_issues _ _ _ _ _ _ _ _ _ _ _ H eq_refl).
Defined.

Lemma instagram_contact_issues_witness :
  sample_check_element Sample.rate_limiting Sample.twice None Sample.empty_world =
    Ok ((Some (Some (1 # 1)%Q, Some (2 # 1)%Q), Some Sample.twice_report),
        Sample.twice_world) /\
  Sample.twice_tags = default [] (el_tags Sample.twice) /\
  ((In "'contact:instagram' starts with 'http' instead of 'https'"
      (default [] (issues Sample.twice_report)) <->
   exists v, Tags.lookup "contact:instagram" Sample.twice_tags = Some v /\
             PyStr.startswith v "http://" = true) /\
  (In "'contact:instagram' does not starts with 'https://www.instagram.com/'"
      (default [] (issues Sample.twice_report)) <->
   exists v, Tags.lookup "contact:instagram" Sample.twice_tags = Some v /\
             PyStr.startswith v "http://" = false /\
             PyStr.startswith v "https://www.instagram.com/" = false) /\
  exists w1 w2,
    (forall p, exists q, website_rule Sample.DATE Sample.urlparse Sample.rate_limiting Sample.twice_tags p Sample.empty_world = Ok (q, w1)) /\
    (forall p, exists q, facebook_rule Sample.DATE Sample.urlparse Sample.rate_limiting Sample.twice_tags p w1 = Ok (q, w2)) /\
    (In "'contact:instagram' URI invalid" (default [] (issues Sample.twice_report)) <->
     exists v r w3, Tags.lookup "contact:instagram" Sample.twice_tags = Some v /\
                    PyStr.startswith v "https://www.instagram.com/" = true /\
                    sample_is_url_ok Sample.rate_limiting v w2 = Ok (r, w3) /\ isOk r = false)).
Proof.
  assert (H : sample_check_element Sample.rate_limiting Sample.twice None
                Sample.empty_world =
      Ok ((Some (Some (1 # 1)%Q, Some (2 # 1)%Q), Some Sample.twice_report),
          Sample.twice_world))
    by reflexivity.
  split; [exact H|]. split; [reflexivity|].
  exact (instagram_contact_issues _ _ _ _ _ _ _ _ _ _ _ H eq_refl).
Defined.

(** The check of a contact page is read where it is made: before the
    element the network would answer 404 to the Instagram page, which the
    website rule reports; the contact rule asks again, is answered 429, and
    reports nothing. *)
Example contact_check_is_read_at_its_call :
  (exists r w,
     sample_is_url_ok Sample.rate_limiting "https://www.instagram.com/joes"
       Sample.empty_world = Ok (r, w) /\ isOk r = false) /\
  Tags.lookup "website" Sample.twice_tags
    = Tags.lookup "contact:instagram" Sample.twice_tags /\
  In "'website' URI invalid" (default [] (issues Sample.twice_report)) /\
  ~ In "'contact:instagram' URI invalid"
       (default [] (issues Sample.twice_report)).
Proof.
  split; [eexists _, _; split; reflexivity|]. split; [reflexivity|].
  split; [left; reflexivity|].
  simpl. intros [H|[H|[]]]; discriminate H.
Qed.

Lemma opening_hours_resolution_witness :
  sample_check_element Sample.not_found Sample.busy None Sample.empty_world =
    Ok ((Some (Some (1 # 1)%Q, Some (2 # 1)%Q), Some Sample.busy_report),
        Sample.busy_world) /\
  Sample.busy_tags = default [] (el_tags Sample.busy) /\
  (exists hours,
    (forall v, Tags.lookup "opening_hours:covid19" Sample.busy_tags = Some v ->
               v <> "same" -> v <> "restricted" -> hours = v) /\
    (Tags.lookup "opening_hours:covid19" Sample.busy_tags = None \/
     Tags.lookup "opening_hours:covid19" Sample.busy_tags = Some "same" \/
     Tags.lookup "opening_hours:covid19" Sample.busy_tags = Some "restricted" ->
     (forall v, Tags.lookup "opening_hours" Sample.busy_tags = Some v -> hours = v) /\
     (Tags.lookup "opening_hours" Sample.busy_tags = None -> hours = "undefined")) /\
    (In "There is a line break in 'opening_hours' -> remove"
        (default [] (issues Sample.busy_report)) <->
     PyStr.contains PyStr.lf hours = true \/
     PyStr.contains PyStr.cr hours = true)).
Proof.
  assert (H : sample_check_element Sample.not_found Sample.busy None Sample.empty_world =
      Ok ((Some (Some (1 # 1)%Q, Some (2 # 1)%Q), Some Sample.busy_report),
          Sample.busy_world))
    by reflexivity.
  split; [exact H|]. split; [reflexivity|].
  exact (opening_hours_resolution _ _ _ _ _ _ _ _ _ _ _ H eq_refl).
Defined.

Lemma disused_key_is_flagged_witness :
  sample_check_element Sample.not_found Sample.busy None Sample.empty_world =
    Ok ((Some (Some (1 # 1)%Q, Some (2 # 1)%Q), Some Sample.busy_report),
        Sample.busy_world) /\
  Sample.busy_tags = default [] (el_tags Sample.busy) /\
  ((In "There is a 'disused' tag: Check whether this tag is correct. If so, please remove the diet tags."
      (default [] (issues Sample.busy_report)) <->
   PyStr.contains "disused" (PyStr.join (Tags.keys Sample.busy_tags)) = true) /\
  (forall k, In k (Tags.keys Sample.busy_tags) -> PyStr.contains "disused" k = true ->
     In "There is a 'disused' tag: Check whether this tag is correct. If so, please remove the diet tags."
       (default [] (issues Sample.busy_report)))).
Proof.
  assert (H : sample_check_element Sample.not_found Sample.busy None Sample.empty_world =
      Ok ((Some (Some (1 # 1)%Q, Some (2 # 1)%Q), Some Sample.busy_report),
          Sample.busy_world))
    by reflexivity.
  split; [exact H|]. split; [reflexivity|].
  exact (disused_key_is_flagged _ _ _ _ _ _ _ _ _ _ _ H eq_refl).
Defined.

Lemma name_resolution_order_witness :
  sample_check_element Sample.not_found Sample.busy None Sample.empty_world =
    Ok ((Some (Some (1 # 1)%Q, Some (2 # 1)%Q), Some Sample.busy_report),
        Sample.busy_world) /\
  Sample.busy_tags = default [] (el_tags Sample.busy) /\
  (exists n,
    name Sample.busy_report = PyStr.replace PyStr.dquote "”" n /\
    (forall v, Tags.lookup "name" Sample.busy_tags = Some v -> n = v) /\
    (Tags.lookup "name" Sample.busy_tags = None ->
     forall v, Tags.lookup "name:en" Sample.busy_tags = Some v -> n = v) /\
    (Tags.lookup "name" Sample.busy_tags = None -> Tags.lookup "name:en" Sample.busy_tags = None ->
     (Tags.get "amenity" Sample.busy_tags = "vending_machine" -> n = "vending machine") /\
     (Tags.get "amenity" Sample.busy_tags <> "vending_machine" ->
      n = el_type Sample.busy +:+ " " +:+ pretty (el_id Sample.busy))) /\
    (In "name" (default [] (undefined Sample.busy_report)) <->
     Tags.lookup "name" Sample.busy_tags = None /\ Tags.lookup "name:en" Sample.busy_tags = None /\
     Tags.get "amenity" Sample.busy_tags <> "vending_machine")).
Proof.
  assert (H : sample_check_element Sample.not_found Sample.busy None Sample.empty_world =
      Ok ((Some (Some (1 # 1)%Q, Some (2 # 1)%Q), Some Sample.busy_report),
          Sample.busy_world))
    by reflexivity.
  split; [exact H|]. split; [reflexivity|].
  exact (name_resolution_order _ _ _ _ _ _ _ _ _ _ _ H eq_refl).
Defined.

Lemma email_issue_of_chosen_address_witness :
  sample_check_element Sample.not_found Sample.busy None Sample.empty_world =
    Ok ((Some (Some (1 # 1)%Q, Some (2 # 1)%Q), Some Sample.busy_report),
        Sample.busy_world) /\
  Sample.busy_tags = default [] (el_tags Sample.busy) /\
  ((In ("E-Mail is not valid: " +:+ "An email address must have an @-sign.") (default [] (issues Sample.busy_report)) <->
   exists email,
     (Tags.lookup "contact:email" Sample.busy_tags = Some email \/
      (Tags.lookup "contact:email" Sample.busy_tags = None /\
       Tags.lookup "email" Sample.busy_tags = Some email)) /\
     Sample.validate_email email = Some "An email address must have an @-sign.")).
Proof.
  assert (H : sample_check_element Sample.not_found Sample.busy None Sample.empty_world =
      Ok ((Some (Some (1 # 1)%Q, Some (2 # 1)%Q), Some Sample.busy_report),
          Sample.busy_world))
    by reflexivity.
  split; [exact H|]. split; [reflexivity|].
  exact (email_issue_of_chosen_address _ _ _ _ _ _ _ _ _ _ _ _ H eq_refl).
Defined.

Lemma unusual_diet_value_issue_witness :
  sample_check_element Sample.not_found Sample.busy None Sample.empty_world =
    Ok ((Some (Some (1 # 1)%Q, Some (2 # 1)%Q), Some Sample.busy_report),
        Sample.busy_world) /\
  Sample.busy_tags = default [] (el_tags Sample.busy) /\
  ((In ("'diet:vegan' has an unusual value: " +:+ "mostly") (default [] (issues Sample.busy_report)) <->
   Tags.lookup "diet:vegan" Sample.busy_tags = Some "mostly" /\
   "mostly" <> "only" /\ "mostly" <> "yes" /\ "mostly" <> "limited")).
Proof.
  assert (H : sample_check_element Sample.not_found Sample.busy None Sample.empty_world =
      Ok ((Some (Some (1 # 1)%Q, Some (2 # 1)%Q), Some Sample.busy_report),
          Sample.busy_world))
    by reflexivity.
  split; [exact H|]. split; [reflexivity|].
  exact (unusual_diet_value_issue _ _ _ _ _ _ _ _ _ _ _ _ H eq_refl).
Defined.

Lemma missing_fields_in_check_order_witness :
  sample_check_element Sample.not_found Sample.busy None Sample.empty_world =
    Ok ((Some (Some (1 # 1)%Q, Some (2 # 1)%Q), Some Sample.busy_report),
        Sample.busy_world) /\
  (default [] (undefined Sample.busy_report) `sublist_of`
    ["name"; "diet:vegan"; "cuisine"; "addr:street"; "addr:housenumber";
     "addr:city/suburb"; "addr:postcode"; "opening_hours"] /\
  NoDup (default [] (undefined Sample.busy_report)) /\
  (length (default [] (undefined Sample.busy_report)) <= 8)%nat).
Proof.
  assert (H : sample_check_element Sample.not_found Sample.busy None Sample.empty_world =
      Ok ((Some (Some (1 # 1)%Q, Some (2 # 1)%Q), Some Sample.busy_report),
          Sample.busy_world))
    by reflexivity.
  split; [exact H|].
  exact (missing_fields_in_check_order _ _ _ _ _ _ _ _ _ _ H).
Defined.

Lemma report_name_has_no_double_quote_witness :
  sample_check_element Sample.not_found Sample.busy None Sample.empty_world =
    Ok ((Some (Some (1 # 1)%Q, Some (2 # 1)%Q), Some Sample.busy_report),
        Sample.busy_world) /\
  (PyStr.contains (String PyStr.dquote EmptyString) (name Sample.busy_report) = false).
Proof.
  assert (H : sample_check_element Sample.not_found Sample.busy None Sample.empty_world =
      Ok ((Some (Some (1 # 1)%Q, Some (2 # 1)%Q), Some Sample.busy_report),
          Sample.busy_world))
    by reflexivity.
  split; [exact H|].
  exact (report_name_has_no_double_quote _ _ _ _ _ _ _ _ _ _ H).
Defined.

(** *** The URL check, on a cached URL and on a failing network *)

Lemma cached_verdict_is_returned_witness :
  url_data Sample.cached_world !! "https://recent.example"
    = Some Sample.recent_entry /\
  sample_is_url_ok Sample.online "https://recent.example" Sample.cached_world =
    Ok ({| date := Sample.DATE; isOk := isOk Sample.recent_entry;
           text := text Sample.recent_entry |}, Sample.cached_world).
Proof.
  assert (H : url_data Sample.cached_world !! "https://recent.example"
              = Some Sample.recent_entry) by (vm_compute; reflexivity).
  split; [exact H|].
  exact (cached_verdict_is_returned Sample.DATE Sample.urlparse Sample.online
           "https://recent.example" Sample.cached_world Sample.recent_entry H).
Defined.

Lemma transport_failure_is_a_verdict_witness :
  url_data Sample.empty_world !! "https://a.example" = None /\
  is_url_format_valid Sample.urlparse "https://a.example" = true /\
  Sample.offline (probes Sample.empty_world) "https://a.example"
    = Raised "ConnectionError" /\
  sample_is_url_ok Sample.offline "https://a.example" Sample.empty_world =
    Ok ({| date := Sample.DATE; isOk := false;
           text := "Exception: " +:+ "ConnectionError" |},
        {| url_data := url_data Sample.empty_world;
           probes := probes Sample.empty_world ++ ["https://a.example"] |}).
Proof.
  split; [reflexivity|]. split; [reflexivity|]. split; [reflexivity|].
  apply (transport_failure_is_a_verdict Sample.DATE Sample.urlparse
           Sample.offline "https://a.example" Sample.empty_world
           "ConnectionError"); reflexivity.
Defined.

(** *** The loop and the run *)

Lemma features_follow_input_order_witness :
  sample_check_data Sample.online
    [Sample.green_bowl; Sample.steak_house; Sample.bare_node]
    Sample.empty_world =
    Ok ({| _timestamp := Sample.TIMESTAMP;
           features := [Sample.green_bowl_report; Sample.bare_node_report] |},
        Sample.empty_world) /\
  map (fun f => (_id f, _type f))
    [Sample.green_bowl_report; Sample.bare_node_report] =
  map (fun el => (el_id el, el_type el))
    (List.filter
       (fun el => negb (String.eqb
                          (Tags.get "diet:vegan" (default [] (el_tags el)))
                          "no"))
       [Sample.green_bowl; Sample.steak_house; Sample.bare_node]).
Proof.
  assert (H : sample_check_data Sample.online
                [Sample.green_bowl; Sample.steak_house; Sample.bare_node]
                Sample.empty_world =
              Ok ({| _timestamp := Sample.TIMESTAMP;
                     features := [Sample.green_bowl_report;
                                  Sample.bare_node_report] |},
                  Sample.empty_world)) by reflexivity.
  split; [exact H|].
  exact (features_follow_input_order _ _ _ _ _ _ _ _ _ H).
Defined.

Lemma check_data_returns_on_resolvable_input_witness :
  Forall resolvable [Sample.busy; Sample.steak_house] /\
  exists result w',
    sample_check_data Sample.offline [Sample.busy; Sample.steak_house]
      Sample.empty_world = Ok (result, w') /\
    url_data w' = url_data Sample.empty_world.
Proof.
  assert (H : Forall resolvable [Sample.busy; Sample.steak_house])
    by (repeat constructor; left; reflexivity).
  split; [exact H|].
  exact (check_data_returns_on_resolvable_input Sample.TIMESTAMP Sample.DATE
           Sample.urlparse Sample.offline Sample.validate_email
           [Sample.busy; Sample.steak_house] Sample.empty_world H).
Defined.

Lemma run_probes_only_tag_urls_witness :
  sample_check_data Sample.not_found [Sample.busy] Sample.empty_world =
    Ok ({| _timestamp := Sample.TIMESTAMP; features := [Sample.busy_report] |},
        Sample.busy_world) /\
  exists new,
    probes Sample.busy_world = probes Sample.empty_world ++ new /\
    forall u, In u new ->
      url_data Sample.empty_world !! u = None /\
      is_url_format_valid Sample.urlparse u = true /\
      exists el tags,
        In el [Sample.busy] /\ tags = default [] (el_tags el) /\
        Tags.get "diet:vegan" tags <> "no" /\
        (Tags.lookup "contact:website" tags = Some u \/
         Tags.lookup "website" tags = Some u \/
         (Tags.lookup "contact:facebook" tags = Some u /\
          PyStr.startswith u "https://www.facebook.com/" = true) \/
         (Tags.lookup "contact:instagram" tags = Some u /\
          PyStr.startswith u "https://www.instagram.com/" = true)).
Proof.
  assert (H : sample_check_data Sample.not_found [Sample.busy]
                Sample.empty_world =
              Ok ({| _timestamp := Sample.TIMESTAMP;
                     features := [Sample.busy_report] |}, Sample.busy_world))
    by reflexivity.
  split; [exact H|].
  exact (run_probes_only_tag_urls _ _ _ _ _ _ _ _ _ H).
Defined.

Lemma cached_urls_are_not_probed_witness :
  sample_main Sample.online ∅ (Some [Sample.with_website])
    = Ok Sample.first_run /\
  forall u, In u (run_probes Sample.first_run) ->
            urldata_file Sample.first_run !! u = None.
Proof.
  assert (H : sample_main Sample.online ∅ (Some [Sample.with_website])
              = Ok Sample.first_run) by (vm_compute; reflexivity).
  split; [exact H|].
  exact (cached_urls_are_not_probed _ _ _ _ _ _ _ _ _ H).
Defined.

Lemma iteration_ignores_earlier_coordinates_witness :
  (el_type Sample.busy = "node" \/ el_type Sample.busy = "way" \/
   el_type Sample.busy = "relation") /\
  sample_check_element Sample.rate_limiting Sample.busy None
    Sample.empty_world =
  sample_check_element Sample.rate_limiting Sample.busy (Some (None, None))
    Sample.empty_world.
Proof.
  assert (Ht : el_type Sample.busy = "node" \/ el_type Sample.busy = "way" \/
               el_type Sample.busy = "relation") by (left; reflexivity).
  split; [exact Ht|].
  exact (iteration_ignores_earlier_coordinates Sample.DATE Sample.urlparse
           Sample.rate_limiting Sample.validate_email Sample.busy None
           (Some (None, None)) Sample.empty_world Ht).
Defined.

(** The requests made so far are another matter: a network may answer by
    them, and the report follows. *)
Example report_follows_earlier_requests :
  exists l f1 w1 f2 w2,
    sample_check_element Sample.rate_limiting Sample.twice None
      Sample.empty_world = Ok ((l, Some f1), w1) /\
    sample_check_element Sample.rate_limiting Sample.twice None
      {| url_data := ∅; probes := ["https://a.example"] |}
      = Ok ((l, Some f2), w2) /\
    In "'website' URI invalid" (default [] (issues f1)) /\
    ~ In "'website' URI invalid" (default [] (issues f2)).
Proof.
  eexists _, _, _, _, _.
  split; [reflexivity|]. split; [reflexivity|].
  split; [left; reflexivity|].
  simpl. intros [H|[]]; discriminate H.
Qed.

Lemma unparsable_cache_date_aborts_run_witness :
  Sample.undated_urldata !! "https://undated.example"
    = Some Sample.undated_entry /\
  Sample.strptime (date Sample.undated_entry) = None /\
  sample_main Sample.online Sample.undated_urldata (Some [Sample.green_bowl])
    = Raise ValueError.
Proof.
  assert (H : Sample.undated_urldata !! "https://undated.example"
              = Some Sample.undated_entry) by (vm_compute; reflexivity).
  split; [exact H|]. split; [reflexivity|].
  exact (unparsable_cache_date_aborts_run Sample.TIMESTAMP Sample.DATE
           Sample.urlparse Sample.online Sample.validate_email Sample.strptime
           Sample.undated_urldata (Some [Sample.green_bowl])
           "https://undated.example" Sample.undated_entry H eq_refl).
Defined.
